(** * tap-s3-csv: sampling of S3 objects for schema inference

    A shallow embedding of [tap_s3_csv/s3.py].  Python values are an
    inductive type, dictionaries are insertion-ordered association lists,
    exceptions are an inductive type, and the two effects the module has
    (yielding from a generator, bumping the global [skipped_files_count])
    are the events of a small free monad.  Logging is not modelled: no
    control flow of the module depends on it. *)

From stdpp Require Import base gmap strings sets.
From Stdlib Require Import String Ascii List ZArith Lia Bool.
Import ListNotations.

Local Open Scope string_scope.
Local Open Scope Z_scope.

(** ** Python strings *)

Module PyStr.

(** [str.lower] on the ASCII range. *)
Definition lower_char (c : ascii) : ascii :=
  let n := nat_of_ascii c in
  if ((65 <=? n)%nat && (n <=? 90)%nat)%bool then ascii_of_nat (n + 32) else c.

Fixpoint lower (s : string) : string :=
  match s with
  | EmptyString => EmptyString
  | String c s' => String (lower_char c) (lower s')
  end.

(** [s.split(sep)] for a one-character separator: never the empty list. *)
Fixpoint split (sep : ascii) (s : string) : list string :=
  match s with
  | EmptyString => [EmptyString]
  | String c s' =>
      if Ascii.eqb c sep then EmptyString :: split sep s'
      else match split sep s' with
           | [] => [String c EmptyString]
           | piece :: pieces => String c piece :: pieces
           end
  end.

(** [l.pop()] and [l[-1]] on the result of a split. *)
Definition pop (l : list string) : string := List.last l EmptyString.

(** [s.endswith(suffix)]: some tail of [s] is [suffix]. *)
Fixpoint endswith (s suffix : string) : bool :=
  if String.eqb s suffix then true
  else match s with
       | EmptyString => false
       | String _ s' => endswith s' suffix
       end.

(** Truth value of a string: non-empty. *)
Definition nonempty (s : string) : bool :=
  match s with EmptyString => false | _ => true end.

(** [x in l] for a list of strings. *)
Definition mem (x : string) (l : list string) : bool :=
  existsb (String.eqb x) l.

End PyStr.

(** ** Python values and dictionaries *)

#[warnings="-register-all"]
Inductive pyval : Type :=
| PNone
| PBool (b : bool)
| PInt (z : Z)
| PFloat (mantissa exponent : Z)   (* a finite float, mantissa * 2 ^ exponent *)
| PStr (s : string)
| PList (items : list pyval)
| PDict (entries : list (string * pyval)).

(** A [dict] with string keys, in insertion order. *)
Abbreviation dict := (list (string * pyval)).

Fixpoint dict_get (d : dict) (key : string) : option pyval :=
  match d with
  | [] => None
  | (k, v) :: d' => if String.eqb k key then Some v else dict_get d' key
  end.

(** [d[key] = v]: replaces in place, or appends a new key. *)
Fixpoint dict_set (d : dict) (key : string) (v : pyval) : dict :=
  match d with
  | [] => [(key, v)]
  | (k, v0) :: d' =>
      if String.eqb k key then (k, v) :: d' else (k, v0) :: dict_set d' key v
  end.

(** [d.pop(key)] for a key that is present. *)
Fixpoint dict_pop (d : dict) (key : string) : dict :=
  match d with
  | [] => []
  | (k, v) :: d' => if String.eqb k key then d' else (k, v) :: dict_pop d' key
  end.

Definition dict_keys (d : dict) : list string := map fst d.

Definition dict_has (d : dict) (key : string) : bool :=
  match dict_get d key with Some _ => true | None => false end.

(** Truth value of a Python object. *)
Definition truthy (v : pyval) : bool :=
  match v with
  | PNone => false
  | PBool b => b
  | PInt z => negb (z =? 0)
  | PFloat mantissa _ => negb (mantissa =? 0)
  | PStr s => PyStr.nonempty s
  | PList l => match l with [] => false | _ => true end
  | PDict d => match d with [] => false | _ => true end
  end.

(** [len(v)]: [None] stands for the [TypeError] of an object without
    a length. *)
Definition py_len (v : pyval) : option nat :=
  match v with
  | PStr s => Some (String.length s)
  | PList l => Some (List.length l)
  | PDict d => Some (List.length d)
  | PNone | PBool _ | PInt _ | PFloat _ _ => None
  end.

Definition is_dict (v : pyval) : bool :=
  match v with PDict _ => true | _ => false end.

(** ** merge_dicts *)

(** [merge_onto first (PDict second)] is [merge_dicts(first, second)]; the
    recursion descends into the values of [second]. *)
Fixpoint merge_onto (first : dict) (second : pyval) {struct second} : dict :=
  match second with
  | PDict entries =>
      (fix loop (keys : dict) (to_return : dict) {struct keys} : dict :=
         match keys with
         | [] => to_return
         | (key, second_key) :: keys' =>
             loop keys'
               (match dict_get first key with
                | Some first_key =>
                    match first_key, second_key with
                    | PDict f, PDict _ =>
                        dict_set to_return key (PDict (merge_onto f second_key))
                    | _, _ => dict_set to_return key second_key
                    end
                | None => dict_set to_return key second_key
                end)
         end) entries first
  | _ => first
  end.

Definition merge_dicts (first second : dict) : dict :=
  merge_onto first (PDict second).

(** ** Exceptions *)

(** The exceptions the module raises or lets through.  An exception built
    from a format string carries the arguments of the format. *)
Inductive exn : Type :=
| InvalidSearchPattern (table_name pattern : string)
    (* ValueError: search_pattern for table `{}` is not a valid regular expression *)
| NoFilesFound (pattern : string)
    (* Exception: No files found matching pattern {} *)
| MissingKeyProperties (s3_path : string) (missing : gset string)
    (* Exception: JSONL/parquet file {} is missing required key_properties key: {} *)
| MissingDateOverrides (s3_path : string) (missing : gset string)
    (* Exception: JSONL/parquet file {} is missing date_overrides key: {} *)
| GzFileError (s3_path : string)
    (* Exception: {} file has some error(s) *)
| NameError (name : string)
| TypeError (what : string)
| AttributeError (what : string)
| KeyError (key : string)
| ValueError (what : string)
| ZeroDivisionError
| UnicodeDecodeError
| JSONDecodeError
| LibraryError (what : string).
    (* anything raised inside boto3, gzip, zipfile or pyarrow *)

(** The [except (UnicodeDecodeError, json.decoder.JSONDecodeError)] clause
    of [sample_files]. *)
Definition is_parse_error (e : exn) : bool :=
  match e with
  | UnicodeDecodeError | JSONDecodeError => true
  | _ => false
  end.

(** ** Generators and effects *)

(** A generator that touches no global state: the rows it yields, then
    [StopIteration] or an exception. *)
Inductive Gen (A : Type) : Type :=
| GStop
| GRaise (e : exn)
| GYield (a : A) (rest : Gen A).
Arguments GStop {A}.
Arguments GRaise {A} e.
Arguments GYield {A} a rest.

(** Code that may yield, raise, or bump [skipped_files_count].  A plain
    function is a [Prog Y R] for every [Y]; a generator is a
    [Prog Y unit]. *)
Inductive Prog (Y R : Type) : Type :=
| Ret (r : R)
| Raise (e : exn)
| Yield (y : Y) (k : Prog Y R)
| Skipped (k : Prog Y R).
Arguments Ret {Y R} r.
Arguments Raise {Y R} e.
Arguments Yield {Y R} y k.
Arguments Skipped {Y R} k.

Fixpoint bind {Y A B} (m : Prog Y A) (f : A -> Prog Y B) : Prog Y B :=
  match m with
  | Ret a => f a
  | Raise e => Raise e
  | Yield y k => Yield y (bind k f)
  | Skipped k => Skipped (bind k f)
  end.

Declare Scope prog_scope.
Delimit Scope prog_scope with prog.
Notation "'let*' x ':=' m 'in' k" := (bind m (fun x => k))
  (at level 10, x pattern, m at level 100, k at level 200) : prog_scope.
Notation "m ';;;' k" := (bind m (fun _ => k))
  (at level 100, k at level 200, right associativity) : prog_scope.
Local Open Scope prog_scope.

(** [skipped_files_count = skipped_files_count + 1] *)
Definition skip {Y} : Prog Y unit := Skipped (Ret tt).

(** [yield from g] for a generator without global effects. *)
Fixpoint yield_from {A} (g : Gen A) : Prog A unit :=
  match g with
  | GStop => Ret tt
  | GRaise e => Raise e
  | GYield a rest => Yield a (yield_from rest)
  end.

(** [try: body  except (UnicodeDecodeError, JSONDecodeError): handler] *)
Fixpoint try_except {Y} (body : Prog Y unit) (handler : Prog Y unit)
  : Prog Y unit :=
  match body with
  | Ret tt => Ret tt
  | Raise e => if is_parse_error e then handler else Raise e
  | Yield y k => Yield y (try_except k handler)
  | Skipped k => Skipped (try_except k handler)
  end.

(** [for x in l: body x] *)
Fixpoint for_each {Y A} (l : list A) (body : A -> Prog Y unit) : Prog Y unit :=
  match l with
  | [] => Ret tt
  | x :: l' => body x ;;; for_each l' body
  end.

(** [[x for x in g]] inside a plain function: the generator's effects on
    the counter happen as it is drained, its exception propagates. *)
Fixpoint collect {Y A} (g : Prog A unit) : Prog Y (list A) :=
  match g with
  | Ret _ => Ret []
  | Raise e => Raise e
  | Yield a k => let* l := collect k in Ret (a :: l)
  | Skipped k => Skipped (collect k)
  end.

(** [itertools.islice(g, stop)] once [stop] is known to be a valid count:
    after [stop] items the underlying generator is not pulled again. *)
Fixpoint islice {A} (g : Gen A) (stop : nat) {struct stop} : Gen A :=
  match stop with
  | O => GStop
  | S n =>
      match g with
      | GStop => GStop
      | GRaise e => GRaise e
      | GYield a rest => GYield a (islice rest n)
      end
  end.

(** The constructor of [itertools.islice] rejects a negative [stop]. *)
Definition islice_stop {Y} (stop : Z) : Prog Y nat :=
  if stop <? 0
  then Raise (ValueError "Stop argument for islice() must be None or an integer: 0 <= x <= sys.maxsize.")
  else Ret (Z.to_nat stop).

(** Observations of a finished run: what was yielded, how it ended, and
    by how much [skipped_files_count] grew. *)
Fixpoint yields {Y R} (p : Prog Y R) : list Y :=
  match p with
  | Ret _ | Raise _ => []
  | Yield y k => y :: yields k
  | Skipped k => yields k
  end.

Fixpoint outcome {Y R} (p : Prog Y R) : exn + R :=
  match p with
  | Ret r => inr r
  | Raise e => inl e
  | Yield _ k | Skipped k => outcome k
  end.

Fixpoint skips {Y R} (p : Prog Y R) : nat :=
  match p with
  | Ret _ | Raise _ => O
  | Yield _ k => skips k
  | Skipped k => S (skips k)
  end.

(** Running a plain function from a given value of the global counter. *)
Definition run {Y R} (p : Prog Y R) (skipped_files_count : nat) : (exn + R) * nat :=
  (outcome p, (skipped_files_count + skips p)%nat).

Fixpoint gen_items {A} (g : Gen A) : list A :=
  match g with
  | GStop | GRaise _ => []
  | GYield a rest => a :: gen_items rest
  end.

(** The exception a generator ends with, if it does not stop. *)
Fixpoint gen_end {A} (g : Gen A) : option exn :=
  match g with
  | GStop => None
  | GRaise e => Some e
  | GYield _ rest => gen_end rest
  end.

(** [yield from l] for a list [l], then the rest of the generator. *)
Fixpoint yield_list {A} (l : list A) (rest : Gen A) : Gen A :=
  match l with
  | [] => rest
  | a :: l' => GYield a (yield_list l' rest)
  end.

(** ** Data model *)

(** An entry of a bucket listing page, as [list_files_in_bucket] yields
    it.  Timestamps are seconds since the epoch, in UTC. *)
Record S3Object : Type := {
  Key : string;
  LastModified : Z;
  Size : Z
}.

(** A page of the [list_objects_v2] paginator: [page['Contents']], when
    the page has that key. *)
Record page : Type := {
  Contents : option (list S3Object)
}.

(** What [get_input_files_for_table] yields. *)
Record s3_file : Type := {
  key : string;
  last_modified : Z
}.

Record config : Type := {
  bucket : string;
  start_date : Z;               (* parse(config.get('start_date')) *)
  end_date : option Z;          (* config.get('end_date'), parsed when compared *)
  max_sample_files : option Z   (* config.get("max_sample_files") *)
}.

Record table_spec : Type := {
  table_name : string;
  search_pattern : string;
  search_prefix : option string;
  key_properties : option (list string);
  date_overrides : option (list string)
}.

(** A line of a stream read as JSONL, by what [bytes.decode('utf-8')],
    [str.strip] and [json.loads] make of it. *)
Inductive line : Type :=
| Undecodable          (* decode raises UnicodeDecodeError *)
| Blank                (* decoded_row.strip() is empty *)
| NotJson              (* json.loads raises JSONDecodeError *)
| Json (v : pyval).    (* json.loads returns v *)

(** A readable object (the body of a bucket object, or a member of a zip
    archive), by what the libraries the module calls make of its bytes. *)
#[warnings="-register-all"]
Inductive file_handle : Type := FileHandle {
  name : string;
    (* de_file.name, the member name of an archive entry *)
  csv_iterator : exn + option (Gen dict);
    (* csv.get_row_iterator(file_handle, table_spec, None, True) *)
  lines : list line;
    (* iterating the stream, one bytes line at a time *)
  gz_fname : option string;
    (* the original file name in the gzip header, if the header has one *)
  gz_read : option exn;
    (* the exception of gzip.GzipFile(...).read(), if it raises *)
  zip_infer : exn + list file_handle
    (* compression.infer(io.BytesIO(file_handle.read()), file_name) *)
}.

(** A row group of a Parquet file: its table's column names and its
    record batches, each batch given row by row (zip( *batch.columns)). *)
Record row_group : Type := {
  column_names : list string;
  to_batches : list (list (list pyval))
}.

Abbreviation parquet_file := (list row_group).

(** An element of the list [get_files_to_sample] returns. *)
Record candidate : Type := {
  c_type : option string;
  c_s3_path : string;
  c_file_handle : file_handle;
  c_extension : option string
}.

Definition SDC_SOURCE_BUCKET_COLUMN := "_sdc_source_bucket".
Definition SDC_SOURCE_FILE_COLUMN := "_sdc_source_file".
Definition SDC_SOURCE_LINENO_COLUMN := "_sdc_source_lineno".
Definition SDC_EXTRA_COLUMN := "_sdc_extra".

(** ** Format decoders *)

Fixpoint get_records_for_csv_loop (sample_rate : Z) (iterator : Gen dict)
    (current_row sampled_row_count : Z) : Gen pyval :=
  match iterator with
  | GStop => GStop
  | GRaise e => GRaise e
  | GYield row rest =>
      if (List.length row =? 0)%nat then
        get_records_for_csv_loop sample_rate rest (current_row + 1) sampled_row_count
      else if sample_rate =? 0 then GRaise ZeroDivisionError
      else if current_row mod sample_rate =? 0 then
        let row :=
          match dict_get row SDC_EXTRA_COLUMN with
          | Some extra => if truthy extra then dict_pop row SDC_EXTRA_COLUMN else row
          | None => row
          end in
        GYield (PDict row)
          (get_records_for_csv_loop sample_rate rest (current_row + 1) (sampled_row_count + 1))
      else
        get_records_for_csv_loop sample_rate rest (current_row + 1) sampled_row_count
  end.

Definition get_records_for_csv (s3_path : string) (sample_rate : Z)
    (iterator : Gen dict) : Gen pyval :=
  get_records_for_csv_loop sample_rate iterator 0 0.

Fixpoint get_records_for_jsonl_loop (sample_rate : Z) (iterator : list line)
    (current_row sampled_row_count : Z) : Gen pyval :=
  match iterator with
  | [] => GStop
  | row :: rest =>
      if sample_rate =? 0 then GRaise ZeroDivisionError
      else if current_row mod sample_rate =? 0 then
        match row with
        | Undecodable => GRaise UnicodeDecodeError
        | Blank =>
            get_records_for_jsonl_loop sample_rate rest (current_row + 1) sampled_row_count
        | NotJson => GRaise JSONDecodeError
        | Json row =>
            match py_len row with
            | None => GRaise (TypeError "object has no len()")
            | Some O =>
                get_records_for_jsonl_loop sample_rate rest (current_row + 1) sampled_row_count
            | Some (S _) =>
                GYield row
                  (get_records_for_jsonl_loop sample_rate rest
                     (current_row + 1) (sampled_row_count + 1))
            end
        end
      else
        get_records_for_jsonl_loop sample_rate rest (current_row + 1) sampled_row_count
  end.

Definition get_records_for_jsonl (s3_path : string) (sample_rate : Z)
    (iterator : list line) : Gen pyval :=
  get_records_for_jsonl_loop sample_rate iterator 0 0.

(** The dictionary comprehension over [enumerate(row)]. *)
Definition parquet_row (names : list string) (row : list pyval) : dict :=
  fold_left (fun d kv => dict_set d (fst kv) (snd kv)) (combine names row) [].

(** The rows of a file in the order the three nested loops visit them. *)
Definition parquet_rows (f : parquet_file) : list dict :=
  flat_map (fun table =>
    flat_map (fun batch => map (parquet_row (column_names table)) batch)
             (to_batches table)) f.

Fixpoint get_records_for_parquet_loop (sample_rate : Z) (rows : list dict)
    (current_row sampled_row_count : Z) : Gen pyval :=
  match rows with
  | [] => GStop
  | row :: rest =>
      if sample_rate =? 0 then GRaise ZeroDivisionError
      else if current_row mod sample_rate =? 0 then
        GYield (PDict row)
          (get_records_for_parquet_loop sample_rate rest
             (current_row + 1) (sampled_row_count + 1))
      else
        get_records_for_parquet_loop sample_rate rest current_row sampled_row_count
  end.

(** [peek]: the first item and the iterator put back together, [None]
    for an exhausted iterator; an exception of the first pull goes
    through. *)
Definition peek {A} (iterable : Gen A) : exn + option (A * Gen A) :=
  match iterable with
  | GStop => inr None
  | GRaise e => inl e
  | GYield first rest => inr (Some (first, GYield first rest))
  end.

(** The loop of [check_key_properties_and_date_overrides_for_jsonl_file]:
    the union of the keys of at most 5001 records. *)
Fixpoint observed_keys (records : Gen pyval) (rows : nat) (all_keys : gset string)
  : exn + gset string :=
  match records with
  | GStop => inr all_keys
  | GRaise e => inl e
  | GYield record rest =>
      let rows := S rows in
      match record with
      | PDict d =>
          let all_keys := all_keys ∪ list_to_set (dict_keys d) in
          if (5000 <? rows)%nat then inr all_keys
          else observed_keys rest rows all_keys
      | _ => inl (AttributeError "object has no attribute 'keys'")
      end
  end.

(** [table_spec.get(field)] used as a condition. *)
Definition declared (field : option (list string)) : list string :=
  match field with Some l => l | None => [] end.

Definition check_key_properties_and_date_overrides_for_jsonl_file {Y}
    (spec : table_spec) (jsonl_sample_records : Gen pyval) (s3_path : string)
  : Prog Y unit :=
  match observed_keys jsonl_sample_records 0 ∅ with
  | inl e => Raise e
  | inr all_keys =>
      (match declared (key_properties spec) with
       | [] => Ret tt
       | props =>
           let key_properties : gset string := list_to_set props in
           if bool_decide (key_properties ⊆ all_keys) then Ret tt
           else Raise (MissingKeyProperties s3_path (key_properties ∖ all_keys))
       end) ;;;
      (match declared (date_overrides spec) with
       | [] => Ret tt
       | overrides =>
           let date_overrides : gset string := list_to_set overrides in
           if bool_decide (date_overrides ⊆ all_keys) then Ret tt
           else Raise (MissingDateOverrides s3_path (date_overrides ∖ all_keys))
       end)
  end.

(** Modelled from the spec: [utils.get_file_name_from_gzfile], which is
    not part of the sources at hand.  It reads the gzip header and returns
    the original file name stored there; for a stream whose header has no
    original file name (gzip --no-name, or a tar archive) it raises
    [AttributeError], which is what the handler of [sampling_gz_file]
    expects. *)
Definition get_file_name_from_gzfile (fileobj : file_handle) : exn + string :=
  match gz_fname fileobj with
  | Some gz_file_name => inr gz_file_name
  | None => inl (AttributeError "original file name")
  end.

Definition OTHER_FILES : list string := ["csv"; "gz"; "jsonl"; "txt"; "parquet"].

Definition unzipped (file_key : string) (de_file : file_handle) : candidate :=
  {| c_type := Some "unzipped"; c_s3_path := file_key;
     c_file_handle := de_file; c_extension := None |}.

Definition direct (file_key : string) (fh : file_handle) (extension : string)
  : candidate :=
  {| c_type := None; c_s3_path := file_key;
     c_file_handle := fh; c_extension := Some extension |}.

(** The condition of the comprehension over the members of a zip. *)
Definition supported_member (de_file : file_handle) : bool :=
  PyStr.mem (PyStr.lower (PyStr.pop (PyStr.split "." (name de_file)))) OTHER_FILES
  && negb (PyStr.endswith (name de_file) ".tar.gz").

Definition metadata_schema : dict :=
  [ (SDC_SOURCE_BUCKET_COLUMN, PDict [("type", PStr "string")]);
    (SDC_SOURCE_FILE_COLUMN, PDict [("type", PStr "string")]);
    (SDC_SOURCE_LINENO_COLUMN, PDict [("type", PStr "integer")]);
    (SDC_EXTRA_COLUMN,
      PDict [("type", PStr "array");
             ("items", PDict [("anyOf",
                PList [PDict [("type", PStr "object"); ("properties", PDict [])];
                       PDict [("type", PStr "string")]])])]) ].

Definition empty_schema : pyval :=
  PDict [("type", PStr "object"); ("properties", PDict [])].

Section Sampling.

(** The collaborators of the module: the regular expression compiler,
    the bucket (the pages of its listing, the bodies of its objects, and what
    pyarrow reads once an object is downloaded), and
    [conversion.generate_schema]. *)
Variable re_compile : string -> option (string -> bool).
Variable paginate : string -> option string -> list page.
Variable get_file_handle : string -> string -> file_handle.
Variable ParquetFile : string -> string -> exn + parquet_file.
Variable generate_schema : list pyval -> table_spec -> dict.

Fixpoint list_files_in_bucket_loop (pages : list page) : Gen S3Object :=
  match pages with
  | [] => GStop
  | page :: rest =>
      match Contents page with
      | None => GRaise (KeyError "Contents")
      | Some contents => yield_list contents (list_files_in_bucket_loop rest)
      end
  end.

Definition list_files_in_bucket (bucket : string) (search_prefix : option string)
  : Gen S3Object :=
  list_files_in_bucket_loop (paginate bucket search_prefix).

Definition get_records_for_parquet (s3_bucket s3_path : string)
    (sample_rate : Z) : Gen pyval :=
  match ParquetFile s3_bucket s3_path with
  | inl e => GRaise e
  | inr parquet_file =>
      get_records_for_parquet_loop sample_rate (parquet_rows parquet_file) 0 0
  end.

(** The call of [sample_file] at the end passes six positional
    arguments to a function of seven parameters: once its arguments are
    evaluated, the call raises [TypeError]. *)
Definition sampling_gz_file {Y} (spec : table_spec) (s3_path : string)
    (fh : file_handle) (sample_rate : Z) : Prog Y (Gen pyval) :=
  if PyStr.endswith s3_path ".tar.gz" then skip ;;; Ret GStop
  else
    match get_file_name_from_gzfile fh with
    | inl (AttributeError _) => skip ;;; Ret GStop
    | inl e => Raise e
    | inr gz_file_name =>
        if PyStr.nonempty gz_file_name then
          if PyStr.endswith gz_file_name ".gz" then skip ;;; Ret GStop
          else
            let gz_file_extension :=
              PyStr.lower (PyStr.pop (PyStr.split "." gz_file_name)) in
            match gz_read fh with
            | Some e => Raise e
            | None =>
                Raise (TypeError "sample_file() missing 1 required positional argument: 'config'")
            end
        else Raise (GzFileError s3_path)
    end.

(** The two iterators of [itertools.tee] see the rows of one underlying
    generator, which has no effect besides raising: the copy handed to
    the check and the copy returned are the same value.  In the Parquet
    branch the argument [jsonl_sample_records] of the check is a name
    that is bound nowhere. *)
Definition sample_file {Y} (spec : table_spec) (s3_bucket s3_path : string)
    (fh : file_handle) (sample_rate : Z) (extension : option string)
  : Prog Y (Gen pyval) :=
  match extension with
  | None => skip ;;; Ret GStop
  | Some extension =>
      if negb (PyStr.nonempty extension)
         || String.eqb (PyStr.lower s3_path) extension
      then skip ;;; Ret GStop
      else if PyStr.mem extension ["csv"; "txt"] then
        match csv_iterator fh with
        | inl e => Raise e
        | inr (Some iterator) => Ret (get_records_for_csv s3_path sample_rate iterator)
        | inr None => skip ;;; Ret GStop
        end
      else if String.eqb extension "gz" then
        sampling_gz_file spec s3_path fh sample_rate
      else if String.eqb extension "jsonl" then
        let records := get_records_for_jsonl s3_path sample_rate (lines fh) in
        match peek records with
        | inl e => Raise e
        | inr None => skip ;;; Ret GStop
        | inr (Some (_, check_jsonl_sample_records)) =>
            check_key_properties_and_date_overrides_for_jsonl_file
              spec check_jsonl_sample_records s3_path ;;;
            Ret records
        end
      else if String.eqb extension "parquet" then
        let records := get_records_for_parquet s3_bucket s3_path sample_rate in
        match peek records with
        | inl e => Raise e
        | inr None => skip ;;; Ret GStop
        | inr (Some (_, check_jsonl_sample_records)) =>
            Raise (NameError "jsonl_sample_records")
        end
      else if String.eqb extension "zip" then skip ;;; Ret GStop
      else skip ;;; Ret GStop
  end.

Fixpoint get_files_to_sample_loop {Y} (cfg : config)
    (s3_files : Prog s3_file unit) (max_files : Z)
    (sampled_files : list candidate) : Prog Y (list candidate) :=
  match s3_files with
  | Ret _ => Ret sampled_files
  | Raise e => Raise e
  | Skipped rest => Skipped (get_files_to_sample_loop cfg rest max_files sampled_files)
  | Yield s3_file rest =>
      let file_key := key s3_file in
      if Z.of_nat (List.length sampled_files) >=? max_files then Ret sampled_files
      else if PyStr.nonempty file_key then
        let file_name := PyStr.pop (PyStr.split "/" file_key) in
        let extension := PyStr.lower (PyStr.pop (PyStr.split "." file_name)) in
        let fh := get_file_handle (bucket cfg) file_key in
        if negb (PyStr.nonempty extension)
           || String.eqb (PyStr.lower file_name) extension
        then skip ;;; get_files_to_sample_loop cfg rest max_files sampled_files
        else if PyStr.endswith file_key ".tar.gz"
        then skip ;;; get_files_to_sample_loop cfg rest max_files sampled_files
        else if String.eqb extension "zip" then
          match zip_infer fh with
          | inl e => Raise e
          | inr files =>
              get_files_to_sample_loop cfg rest max_files
                (sampled_files ++ map (unzipped file_key) (filter supported_member files))
          end
        else if PyStr.mem extension OTHER_FILES then
          get_files_to_sample_loop cfg rest max_files
            (sampled_files ++ [direct file_key fh extension])
        else skip ;;; get_files_to_sample_loop cfg rest max_files sampled_files
      else get_files_to_sample_loop cfg rest max_files sampled_files
  end.

Definition get_files_to_sample {Y} (cfg : config)
    (s3_files : Prog s3_file unit) (max_files : Z) : Prog Y (list candidate) :=
  get_files_to_sample_loop cfg s3_files max_files [].

(** The body of the loop of [sample_files]. *)
Definition sample_one (cfg : config) (spec : table_spec)
    (sample_rate max_records : Z) (s3_file : candidate) : Prog pyval unit :=
  let s3_bucket := bucket cfg in
  let s3_path := c_s3_path s3_file in
  let fh := c_file_handle s3_file in
  let file_type := c_type s3_file in
  let extension := c_extension s3_file in
  let is_unzipped :=
    match file_type with
    | Some t => PyStr.nonempty t && String.eqb t "unzipped"
    | None => false
    end in
  let s3_path := if is_unzipped then s3_path ++ "/" ++ name fh else s3_path in
  let extension :=
    if is_unzipped
    then Some (PyStr.lower (PyStr.pop (PyStr.split "." (name fh))))
    else extension in
  try_except
    (let* records := sample_file spec s3_bucket s3_path fh sample_rate extension in
     let* stop := islice_stop max_records in
     yield_from (islice records stop))
    skip.

Definition sample_files (cfg : config) (spec : table_spec)
    (s3_files : Prog s3_file unit) (sample_rate max_records max_files : Z)
  : Prog pyval unit :=
  let max_files :=
    match max_sample_files cfg with Some m => m | None => max_files end in
  let* files := get_files_to_sample cfg s3_files max_files in
  let* stop := islice_stop max_files in
  for_each (firstn stop files) (sample_one cfg spec sample_rate max_records).

Fixpoint get_input_files_for_table_loop (pattern : string)
    (matcher : string -> bool) (modified_since modified_until : option Z)
    (listing : Gen S3Object) (matched_files_count unmatched_files_count : nat)
  : Prog s3_file unit :=
  match listing with
  | GStop =>
      if (matched_files_count =? 0)%nat then Raise (NoFilesFound pattern)
      else Ret tt
  | GRaise e => Raise e
  | GYield s3_object rest =>
      let key := Key s3_object in
      let last_modified := LastModified s3_object in
      if Size s3_object =? 0 then
        skip ;;;
        get_input_files_for_table_loop pattern matcher modified_since modified_until
          rest matched_files_count (S unmatched_files_count)
      else if matcher key then
        let matched_files_count := S matched_files_count in
        let continue :=
          get_input_files_for_table_loop pattern matcher modified_since
            modified_until rest matched_files_count unmatched_files_count in
        if match modified_since with
           | None => true
           | Some since => since <? last_modified
           end
        then
          if match modified_until with
             | None => true
             | Some until => last_modified <? until
             end
          then Yield {| key := key; last_modified := last_modified |} continue
          else continue
        else continue
      else
        get_input_files_for_table_loop pattern matcher modified_since modified_until
          rest matched_files_count (S unmatched_files_count)
  end.

Definition get_input_files_for_table (cfg : config) (spec : table_spec)
    (modified_since modified_until : option Z) : Prog s3_file unit :=
  let pattern := search_pattern spec in
  match re_compile pattern with
  | None => Raise (InvalidSearchPattern (table_name spec) pattern)
  | Some matcher =>
      get_input_files_for_table_loop pattern matcher modified_since modified_until
        (list_files_in_bucket (bucket cfg) (search_prefix spec)) 0 0
  end.

Definition get_sampled_schema_for_table {Y} (cfg : config) (spec : table_spec)
  : Prog Y pyval :=
  let s3_files_gen :=
    get_input_files_for_table cfg spec (Some (start_date cfg)) (end_date cfg) in
  let* samples := collect (sample_files cfg spec s3_files_gen 5 1000 5) in
  match samples with
  | [] => Ret empty_schema
  | _ =>
      let data_schema := generate_schema samples spec in
      Ret (PDict [("type", PStr "object");
                  ("properties", PDict (merge_dicts data_schema metadata_schema))])
  end.

End Sampling.


(** ** Definitions used by the statements *)

(** [c] does not occur in [s]. *)
Fixpoint free_of (c : ascii) (s : string) : bool :=
  match s with
  | EmptyString => true
  | String a s' => negb (Ascii.eqb a c) && free_of c s'
  end.

Fixpoint last_char (s : string) : option ascii :=
  match s with
  | EmptyString => None
  | String a EmptyString => Some a
  | String _ s' => last_char s'
  end.

(** The rows whose 0-indexed position [i] satisfies [i mod r = 0], every
    row counting toward the position. *)
Fixpoint every_rth_from {A} (r : Z) (i : Z) (rows : list A) : list A :=
  match rows with
  | [] => []
  | row :: rest =>
      if i mod r =? 0 then row :: every_rth_from r (i + 1) rest
      else every_rth_from r (i + 1) rest
  end.

Definition every_rth {A} (r : Z) (rows : list A) : list A :=
  every_rth_from r 0 rows.

(** The listed objects that count as matched: non-empty, key matching. *)
Definition matched_objects (matcher : string -> bool) (listing : list S3Object)
  : list S3Object :=
  filter (fun o => negb (Size o =? 0) && matcher (Key o)) listing.

(** The window test of [get_input_files_for_table]. *)
Definition after_since (modified_since : option Z) (o : S3Object) : bool :=
  match modified_since with None => true | Some since => since <? LastModified o end.

Definition before_until (modified_until : option Z) (o : S3Object) : bool :=
  match modified_until with None => true | Some until => LastModified o <? until end.

Definition in_window (modified_since modified_until : option Z) (o : S3Object)
  : bool :=
  after_since modified_since o && before_until modified_until o.

Definition to_s3_file (o : S3Object) : s3_file :=
  {| key := Key o; last_modified := LastModified o |}.

(** [max_files] as [sample_files] uses it. *)
Definition effective_max_files (cfg : config) (max_files : Z) : Z :=
  match max_sample_files cfg with Some m => m | None => max_files end.

(** *** Concrete inputs *)

(** [re.compile] on patterns without metacharacters: [search] looks for
    the pattern as a substring. *)
Fixpoint search_literal (pattern s : string) : bool :=
  String.prefix pattern s
  || match s with
     | EmptyString => false
     | String _ s' => search_literal pattern s'
     end.

Definition re_literal (pattern : string) : option (string -> bool) :=
  Some (search_literal pattern).

(** A bucket whose listing is one page with the given objects. *)
Definition one_page (contents : list S3Object) (bucket : string)
    (search_prefix : option string) : list page :=
  [ {| Contents := Some contents |} ].

Definition empty_body : file_handle :=
  {| name := ""; csv_iterator := inr None; lines := []; gz_fname := None;
     gz_read := None; zip_infer := inr [] |}.

Definition jsonl_body (ls : list line) : file_handle :=
  {| name := ""; csv_iterator := inr None; lines := ls; gz_fname := None;
     gz_read := None; zip_infer := inr [] |}.

Definition zip_member (n : string) : file_handle :=
  {| name := n; csv_iterator := inr None; lines := []; gz_fname := None;
     gz_read := None; zip_infer := inr [] |}.

Definition zip_body (members : list file_handle) : file_handle :=
  {| name := ""; csv_iterator := inr None; lines := []; gz_fname := None;
     gz_read := None; zip_infer := inr members |}.

Definition cfg0 : config :=
  {| bucket := "bucket"; start_date := 0; end_date := None;
     max_sample_files := None |}.

Definition spec_of (pattern : string) : table_spec :=
  {| table_name := "t"; search_pattern := pattern; search_prefix := None;
     key_properties := None; date_overrides := None |}.

Definition no_parquet (s3_bucket s3_path : string) : exn + parquet_file :=
  inl (LibraryError "ClientError").

(** A Parquet file of two row groups, six rows in all. *)
Definition six_rows : parquet_file :=
  [ {| column_names := ["a"];
       to_batches := [[[PInt 10]; [PInt 11]]; [[PInt 12]; [PInt 13]]] |};
    {| column_names := ["a"];
       to_batches := [[[PInt 14]; [PInt 15]]] |} ].

(** A Parquet file of one row group and one batch of three rows. *)
Definition three_rows : parquet_file :=
  [ {| column_names := ["a"];
       to_batches := [[[PInt 10]; [PInt 11]; [PInt 12]]] |} ].

(** A schema inference that declares every key of the first sample a
    string. *)
Definition first_row_schema (samples : list pyval) (spec : table_spec) : dict :=
  match samples with
  | PDict d :: _ => map (fun kv => (fst kv, PDict [("type", PStr "string")])) d
  | _ => []
  end.

(** What [merge_dicts(first, second)] stores under a key of [second]. *)
Definition merged_value (first : dict) (key : string) (second_key : pyval) : pyval :=
  match dict_get first key with
  | Some (PDict f) =>
      match second_key with
      | PDict s => PDict (merge_dicts f s)
      | _ => second_key
      end
  | _ => second_key
  end.

(** The [properties] of a schema object. *)
Definition schema_properties (schema : pyval) : dict :=
  match schema with
  | PDict d => match dict_get d "properties" with Some (PDict p) => p | _ => [] end
  | _ => []
  end.

(** A readable object holding CSV rows. *)
Definition csv_member (n : string) (rows : list dict) : file_handle :=
  {| name := n;
     csv_iterator := inr (Some (fold_right GYield GStop rows));
     lines := []; gz_fname := None; gz_read := None; zip_infer := inr [] |}.

(** *** Definitions for the further properties *)

(** The contents of the pages that come before the first page without
    [Contents]. *)
Fixpoint listed_objects (pages : list page) : list S3Object :=
  match pages with
  | [] => []
  | p :: rest =>
      match Contents p with
      | Some contents => (contents ++ listed_objects rest)%list
      | None => []
      end
  end.

Definition all_pages_have_contents (pages : list page) : bool :=
  forallb (fun p => match Contents p with Some _ => true | None => false end) pages.

(** What the CSV decoder does to a row it yields. *)
Definition strip_extra (row : dict) : dict :=
  match dict_get row SDC_EXTRA_COLUMN with
  | Some extra => if truthy extra then dict_pop row SDC_EXTRA_COLUMN else row
  | None => row
  end.

Definition nonempty_row (row : dict) : bool := negb (List.length row =? 0)%nat.

(** A line the JSONL decoder gets through without raising, and the row
    it yields for it, if any. *)
Definition decodable (l : line) : bool :=
  match l with
  | Blank => true
  | Json v => match py_len v with Some _ => true | None => false end
  | Undecodable | NotJson => false
  end.

Definition jsonl_row (l : line) : list pyval :=
  match l with
  | Json v => match py_len v with Some (S _) => [v] | _ => [] end
  | _ => []
  end.

(** A candidate made of a bucket object itself, not of an archive
    member. *)
Definition is_direct (c : candidate) : bool :=
  match c_type c with None => true | Some _ => false end.

(** A candidate with a supported extension that is not a [.tar.gz]. *)
Definition supported_candidate (c : candidate) : bool :=
  match c_type c with
  | Some _ => supported_member (c_file_handle c)
  | None =>
      match c_extension c with
      | Some extension =>
          PyStr.mem extension OTHER_FILES
          && negb (PyStr.endswith (c_s3_path c) ".tar.gz")
      | None => false
      end
  end.

(** Dictionaries with distinct keys, at every level of nesting that
    [merge_dicts] descends into. *)
Fixpoint distinct_keys (v : pyval) : Prop :=
  match v with
  | PDict d =>
      NoDup (dict_keys d)
      /\ (fix all (l : dict) : Prop :=
            match l with
            | [] => True
            | (_, x) :: l' => distinct_keys x /\ all l'
            end) d
  | _ => True
  end.

Fixpoint nesting (v : pyval) : nat :=
  match v with
  | PDict d =>
      S ((fix sum (l : dict) : nat :=
            match l with
            | [] => O
            | (_, x) :: l' => (nesting x + sum l')%nat
            end) d)
  | _ => O
  end.

(** ** String facts *)

Lemma lower_length s : String.length (PyStr.lower s) = String.length s.
Proof. induction s as [|c s IH]; simpl; [reflexivity|now rewrite IH]. Qed.

Lemma append_length (s t : string) :
  String.length (s ++ t) = (String.length s + String.length t)%nat.
Proof. induction s as [|c s IH]; simpl; [reflexivity|now rewrite IH]. Qed.

Lemma split_not_nil sep s : PyStr.split sep s <> [].
Proof.
  destruct s as [|c s]; simpl; [discriminate|].
  destruct (Ascii.eqb c sep); [discriminate|].
  destruct (PyStr.split sep s); discriminate.
Qed.

Lemma split_free sep s : free_of sep s = true -> PyStr.split sep s = [s].
Proof.
  induction s as [|c s IH]; simpl; [reflexivity|].
  intros H. apply andb_prop in H as [Hc Hs].
  apply negb_true_iff in Hc. rewrite Hc, (IH Hs). reflexivity.
Qed.

(** Splitting at a separator splits the pieces. *)
Lemma split_app_sep sep s t :
  PyStr.split sep (s ++ String sep t) = (PyStr.split sep s ++ PyStr.split sep t)%list.
Proof.
  induction s as [|c s IH]; simpl.
  - rewrite Ascii.eqb_refl. reflexivity.
  - destruct (Ascii.eqb c sep); [now rewrite IH|].
    rewrite IH. pose proof (split_not_nil sep s) as Hne.
    destruct (PyStr.split sep s); [contradiction|reflexivity].
Qed.

Lemma last_app_ne {A} (l l' : list A) d : l' <> [] -> List.last (l ++ l') d = List.last l' d.
Proof.
  intros Hne. induction l as [|a l IH]; simpl; [reflexivity|].
  destruct (l ++ l')%list eqn:E; [|exact IH].
  apply app_eq_nil in E as [_ E]. contradiction.
Qed.

(** The extension of a name that ends in a dot and a dot-free word. *)
Lemma pop_split_ext sep s ext :
  free_of sep ext = true -> PyStr.pop (PyStr.split sep (s ++ String sep ext)) = ext.
Proof.
  intros H. unfold PyStr.pop. rewrite split_app_sep, (split_free _ _ H).
  apply last_app_ne. discriminate.
Qed.

(** Appending a separator-free suffix extends the last piece. *)
Lemma split_app_free sep s t :
  free_of sep t = true ->
  PyStr.split sep (s ++ t)
  = (removelast (PyStr.split sep s)
       ++ [String.append (List.last (PyStr.split sep s) "") t])%list.
Proof.
  intros H. induction s as [|c s IH].
  - change ("" ++ t) with t. now rewrite (split_free _ _ H).
  - change (String c s ++ t) with (String c (s ++ t)).
    cbn [PyStr.split]. rewrite IH.
    pose proof (split_not_nil sep s) as Hne.
    destruct (PyStr.split sep s) as [|p ps]; [contradiction|].
    destruct (Ascii.eqb c sep).
    + reflexivity.
    + destruct ps as [|p' ps]; reflexivity.
Qed.

Lemma pop_split_app sep s t :
  free_of sep t = true ->
  PyStr.pop (PyStr.split sep (s ++ t)) = PyStr.pop (PyStr.split sep s) ++ t.
Proof.
  intros H. unfold PyStr.pop. rewrite (split_app_free _ _ _ H).
  apply last_last.
Qed.

Lemma endswith_app p suffix : PyStr.endswith (p ++ suffix) suffix = true.
Proof.
  induction p as [|c p IH].
  - change ("" ++ suffix) with suffix.
    destruct suffix; simpl; [reflexivity|].
    now rewrite Ascii.eqb_refl, String.eqb_refl.
  - change (String c p ++ suffix) with (String c (p ++ suffix)).
    cbn [PyStr.endswith]. rewrite IH. now destruct (String.eqb _ _).
Qed.

Lemma endswith_inv s suffix :
  PyStr.endswith s suffix = true -> exists p, s = p ++ suffix.
Proof.
  induction s as [|c s IH]; cbn [PyStr.endswith]; intros H.
  - destruct (String.eqb_spec "" suffix) as [E|E]; [now exists ""|discriminate].
  - destruct (String.eqb_spec (String c s) suffix) as [E|_]; [now exists ""|].
    destruct (IH H) as [p ->]. now exists (String c p).
Qed.

Lemma last_char_app p t : t <> "" -> last_char (p ++ t) = last_char t.
Proof.
  intros Ht. induction p as [|c p IH]; [reflexivity|].
  change (String c p ++ t) with (String c (p ++ t)).
  cbn [last_char]. rewrite IH.
  destruct (p ++ t) eqn:E; [|reflexivity].
  destruct p; [|discriminate]. now subst.
Qed.

(** A string does not end with a suffix that has another last character. *)
Lemma endswith_last_char s suffix :
  suffix <> "" -> last_char s <> last_char suffix -> PyStr.endswith s suffix = false.
Proof.
  intros Hne Hlast. destruct (PyStr.endswith s suffix) eqn:E; [|reflexivity].
  apply endswith_inv in E as [p ->]. now rewrite last_char_app in Hlast.
Qed.

Lemma endswith_nonempty s suffix :
  PyStr.endswith s suffix = true -> suffix <> "" -> PyStr.nonempty s = true.
Proof.
  intros H Hne. apply endswith_inv in H as [p ->].
  destruct p; [|reflexivity]. now destruct suffix.
Qed.

Lemma eqb_length_neq (a b : string) :
  String.length a <> String.length b -> String.eqb a b = false.
Proof. intros H. apply String.eqb_neq. congruence. Qed.

(** How [get_files_to_sample] reads a key that ends in a dot and a
    lower-case word without dot or slash. *)
Lemma key_extension pre ext :
  free_of "." ext = true -> free_of "/" ext = true -> PyStr.lower ext = ext ->
  let file_key := pre ++ String "." ext in
  let file_name := PyStr.pop (PyStr.split "/" file_key) in
  let extension := PyStr.lower (PyStr.pop (PyStr.split "." file_name)) in
  extension = ext
  /\ String.eqb (PyStr.lower file_name) extension = false
  /\ String.eqb (PyStr.lower file_key) ext = false
  /\ PyStr.nonempty file_key = true.
Proof.
  intros Hdot Hslash Hlow file_key file_name extension.
  assert (Hname : file_name = PyStr.pop (PyStr.split "/" pre) ++ String "." ext).
  { unfold file_name, file_key. apply pop_split_app. exact Hslash. }
  assert (Hext : extension = ext).
  { unfold extension. rewrite Hname, pop_split_ext by exact Hdot. exact Hlow. }
  repeat split.
  - exact Hext.
  - rewrite Hext, Hname. apply eqb_length_neq.
    rewrite lower_length, append_length. simpl. lia.
  - apply eqb_length_neq. unfold file_key.
    rewrite lower_length, append_length. simpl. lia.
  - unfold file_key. now destruct pre.
Qed.

(** ** The algebra of runs *)

Lemma yields_bind {Y A B} (m : Prog Y A) (f : A -> Prog Y B) :
  yields (bind m f)
  = (yields m ++ match outcome m with inr a => yields (f a) | inl _ => [] end)%list.
Proof. induction m; simpl; [reflexivity .. |f_equal; exact IHm|exact IHm]. Qed.

Lemma outcome_bind {Y A B} (m : Prog Y A) (f : A -> Prog Y B) :
  outcome (bind m f)
  = match outcome m with inr a => outcome (f a) | inl e => inl e end.
Proof. induction m; simpl; auto. Qed.

Lemma skips_bind {Y A B} (m : Prog Y A) (f : A -> Prog Y B) :
  skips (bind m f)
  = (skips m + match outcome m with inr a => skips (f a) | inl _ => 0 end)%nat.
Proof. induction m; simpl; auto. Qed.

Lemma outcome_collect {Y A} (g : Prog A unit) :
  outcome (@collect Y A g)
  = match outcome g with inr _ => inr (yields g) | inl e => inl e end.
Proof.
  induction g as [r|e|y k IH|k IH]; simpl; auto.
  rewrite outcome_bind, IH. now destruct (outcome k).
Qed.

Lemma skips_collect {Y A} (g : Prog A unit) : skips (@collect Y A g) = skips g.
Proof.
  induction g as [r|e|y k IH|k IH]; simpl; auto.
  rewrite skips_bind, IH. destruct (outcome (collect k)); simpl; lia.
Qed.

Lemma yields_yield_from {A} (g : Gen A) : yields (yield_from g) = gen_items g.
Proof. induction g; simpl; congruence. Qed.

Lemma yields_try_except_skip {Y} (body : Prog Y unit) :
  yields (try_except body skip) = yields body.
Proof.
  induction body as [[]|e|y k IH|k IH]; simpl; try congruence.
  now destruct (is_parse_error e).
Qed.

Lemma gen_items_islice_length {A} (g : Gen A) n :
  (List.length (gen_items (islice g n)) <= n)%nat.
Proof.
  revert g. induction n as [|n IH]; intros g; simpl; [lia|].
  destruct g; simpl; try lia. specialize (IH g). lia.
Qed.

(** ** The Parquet decoder *)

(** Once the row counter is 1 it stays 1: with a rate of 2 or more no
    later row is sampled. *)
Lemma parquet_loop_stuck r rows sampled :
  2 <= r -> get_records_for_parquet_loop r rows 1 sampled = GStop.
Proof.
  intros Hr. induction rows as [|row rows IH]; simpl; [reflexivity|].
  destruct (Z.eqb_spec r 0); [lia|].
  rewrite Z.mod_small by lia. simpl. exact IH.
Qed.

(** With rate 1 every row is sampled. *)
Lemma parquet_loop_rate_1 rows current sampled :
  gen_items (get_records_for_parquet_loop 1 rows current sampled) = map PDict rows.
Proof.
  revert current sampled. induction rows as [|row rows IH]; intros; simpl; [reflexivity|].
  rewrite Z.mod_1_r. simpl. now rewrite IH.
Qed.

(** C1 (code defect).  The claim asks that the Parquet decoder yield the
    rows at positions 0, r, 2r, ...  The decoder advances its row counter
    only when it samples a row, so for every rate of 2 or more it yields
    the first row of the file and nothing else. *)
Theorem parquet_yields_only_first_row
    (ParquetFile : string -> string -> exn + parquet_file)
    (s3_bucket s3_path : string) (r : Z) (f : parquet_file) :
  2 <= r ->
  ParquetFile s3_bucket s3_path = inr f ->
  gen_items (get_records_for_parquet ParquetFile s3_bucket s3_path r)
  = map PDict (firstn 1 (parquet_rows f)).
Proof.
  intros Hr Hf. unfold get_records_for_parquet. rewrite Hf.
  destruct (parquet_rows f) as [|row rows]; simpl; [reflexivity|].
  destruct (Z.eqb_spec r 0); [lia|].
  now rewrite parquet_loop_stuck.
Qed.

(** Six rows at the rate [sample_files] passes by default: positions 0
    and 5 are asked for, only position 0 is yielded. *)
Lemma parquet_yields_only_first_row_witness :
  2 <= 5
  /\ every_rth 5 (map PDict (parquet_rows six_rows))
     = [PDict [("a", PInt 10)]; PDict [("a", PInt 15)]]
  /\ gen_items (get_records_for_parquet (fun _ _ => inr six_rows) "bucket" "t.parquet" 5)
     = [PDict [("a", PInt 10)]].
Proof.
  split; [lia|]. split; [reflexivity|].
  exact (parquet_yields_only_first_row (fun _ _ => inr six_rows)
           "bucket" "t.parquet" 5 six_rows ltac:(lia) eq_refl).
Defined.

(** ** The gzip unwrapper *)

(** C5.  A gzip stream whose header carries no original file name is
    skipped: [sampling_gz_file] returns the empty result, bumps the skip
    counter exactly once and raises nothing. *)
Theorem gz_without_name_is_skipped {Y} (spec : table_spec) (s3_path : string)
    (fh : file_handle) (sample_rate : Z) (skipped_files_count : nat) :
  gz_fname fh = None ->
  @sampling_gz_file Y spec s3_path fh sample_rate = Skipped (Ret GStop)
  /\ run (@sampling_gz_file Y spec s3_path fh sample_rate) skipped_files_count
     = (inr GStop, S skipped_files_count).
Proof.
  intros Hname.
  assert (E : @sampling_gz_file Y spec s3_path fh sample_rate = Skipped (Ret GStop)).
  { unfold sampling_gz_file, get_file_name_from_gzfile. rewrite Hname.
    now destruct (PyStr.endswith s3_path ".tar.gz"). }
  split; [exact E|]. rewrite E. unfold run. simpl. f_equal. lia.
Qed.

Lemma gz_without_name_is_skipped_witness :
  gz_fname empty_body = None
  /\ run (@sampling_gz_file unit (spec_of "a") "a.gz" empty_body 5) 0 = (inr GStop, 1%nat).
Proof.
  split; [reflexivity|].
  exact (proj2 (@gz_without_name_is_skipped unit (spec_of "a") "a.gz" empty_body 5 0%nat eq_refl)).
Defined.

(** ** Post-sample validation *)

(** C2 (code defect).  The claim asks for the descriptive data-quality
    error on a Parquet file whose rows miss a declared field.  The Parquet
    branch of [sample_file] hands the check a name that is bound nowhere:
    for every non-empty Parquet file the call raises [NameError], whatever
    the table spec declares. *)
Theorem parquet_check_raises_name_error {Y}
    (ParquetFile : string -> string -> exn + parquet_file)
    (spec : table_spec) (s3_bucket s3_path : string) (fh : file_handle)
    (sample_rate : Z) (f : parquet_file) :
  sample_rate <> 0 ->
  String.eqb (PyStr.lower s3_path) "parquet" = false ->
  ParquetFile s3_bucket s3_path = inr f ->
  parquet_rows f <> [] ->
  @sample_file ParquetFile Y spec s3_bucket s3_path fh sample_rate (Some "parquet")
  = Raise (NameError "jsonl_sample_records").
Proof.
  intros Hrate Hpath Hf Hrows. unfold sample_file. rewrite Hpath.
  cbn [PyStr.nonempty negb orb PyStr.mem existsb].
  change (String.eqb "parquet" "csv") with false.
  change (String.eqb "parquet" "txt") with false.
  change (String.eqb "parquet" "gz") with false.
  change (String.eqb "parquet" "jsonl") with false.
  change (String.eqb "parquet" "parquet") with true.
  cbn [orb]. unfold get_records_for_parquet. rewrite Hf.
  destruct (parquet_rows f) as [|row rows]; [contradiction|].
  cbn [get_records_for_parquet_loop].
  destruct (Z.eqb_spec sample_rate 0); [contradiction|].
  reflexivity.
Qed.

(** A one-row file without the declared key [id]. *)
Lemma parquet_check_raises_name_error_witness :
  @sample_file (fun _ _ => inr three_rows) unit
    {| table_name := "t"; search_pattern := "t"; search_prefix := None;
       key_properties := Some ["id"]; date_overrides := None |}
    "bucket" "t.parquet" empty_body 5 (Some "parquet")
  = Raise (NameError "jsonl_sample_records").
Proof.
  apply (@parquet_check_raises_name_error unit (fun _ _ => inr three_rows))
    with (f := three_rows);
    [lia | reflexivity | reflexivity | discriminate].
Defined.

(** The JSONL branch does run the check: when the keys of the sampled
    rows miss a declared key property, it raises the data-quality error
    with the path and the missing keys. *)
Lemma jsonl_check_raises_missing_key {Y}
    (ParquetFile : string -> string -> exn + parquet_file)
    (spec : table_spec) (s3_bucket s3_path : string) (fh : file_handle)
    (sample_rate : Z) (first : pyval) (rest : Gen pyval) (all_keys : gset string) :
  String.eqb (PyStr.lower s3_path) "jsonl" = false ->
  get_records_for_jsonl s3_path sample_rate (lines fh) = GYield first rest ->
  observed_keys (GYield first rest) 0 ∅ = inr all_keys ->
  declared (key_properties spec) <> [] ->
  ¬ (list_to_set (declared (key_properties spec)) ⊆ all_keys) ->
  @sample_file ParquetFile Y spec s3_bucket s3_path fh sample_rate (Some "jsonl")
  = Raise (MissingKeyProperties s3_path
             (list_to_set (declared (key_properties spec)) ∖ all_keys)).
Proof.
  intros Hpath Hrec Hkeys Hdecl Hmiss. unfold sample_file. rewrite Hpath.
  cbn [PyStr.nonempty negb orb PyStr.mem existsb].
  change (String.eqb "jsonl" "csv") with false.
  change (String.eqb "jsonl" "txt") with false.
  change (String.eqb "jsonl" "gz") with false.
  change (String.eqb "jsonl" "jsonl") with true.
  cbn [orb]. rewrite Hrec. cbn [peek].
  unfold check_key_properties_and_date_overrides_for_jsonl_file.
  rewrite Hkeys.
  destruct (declared (key_properties spec)) as [|p ps] eqn:E; [contradiction|].
  rewrite bool_decide_eq_false_2 by exact Hmiss. reflexivity.
Qed.

(** ** The pattern and window filter *)

(** Reads the two inline window tests of the loop as [after_since] and
    [before_until]. *)
Ltac fold_window o :=
  match goal with
  | |- context [match ?ms with Some since => since <? LastModified o | None => true end] =>
      change (match ms with Some since => since <? LastModified o | None => true end)
        with (after_since ms o)
  end;
  match goal with
  | |- context [match ?mu with Some until => LastModified o <? until | None => true end] =>
      change (match mu with Some until => LastModified o <? until | None => true end)
        with (before_until mu o)
  end.

Section Filter.

Variables (pattern : string) (matcher : string -> bool).
Variables (modified_since modified_until : option Z).

Lemma input_files_loop_yields listing matched unmatched :
  yields (get_input_files_for_table_loop pattern matcher modified_since
            modified_until listing matched unmatched)
  = map to_s3_file
      (filter (in_window modified_since modified_until)
              (matched_objects matcher (gen_items listing))).
Proof.
  revert matched unmatched.
  induction listing as [|e|o listing IH]; intros;
    cbn [get_input_files_for_table_loop gen_items].
  - now destruct (matched =? 0)%nat.
  - reflexivity.
  - unfold matched_objects in *. cbn [filter].
    destruct (Size o =? 0); cbn [negb andb].
    + unfold skip. cbn [bind yields]. apply IH.
    + destruct (matcher (Key o)); [|apply IH].
      cbn [filter]. unfold in_window at 1. fold_window o.
      destruct (after_since modified_since o), (before_until modified_until o);
        cbn [andb yields map]; rewrite ?IH; reflexivity.
Qed.

Lemma input_files_loop_outcome listing matched unmatched :
  outcome (get_input_files_for_table_loop pattern matcher modified_since
             modified_until listing matched unmatched)
  = match gen_end listing with
    | Some e => inl e
    | None =>
        if (matched + List.length (matched_objects matcher (gen_items listing)) =? 0)%nat
        then inl (NoFilesFound pattern) else inr tt
    end.
Proof.
  revert matched unmatched.
  induction listing as [|e|o listing IH]; intros;
    cbn [get_input_files_for_table_loop gen_items gen_end].
  - cbn [matched_objects filter List.length]. rewrite Nat.add_0_r.
    now destruct (matched =? 0)%nat.
  - reflexivity.
  - unfold matched_objects in *. cbn [filter].
    destruct (Size o =? 0); cbn [negb andb].
    + unfold skip. cbn [bind outcome]. apply IH.
    + destruct (matcher (Key o)); [|apply IH].
      cbn [List.length]. rewrite Nat.add_succ_r, <- Nat.add_succ_l.
      fold_window o.
      destruct (after_since modified_since o), (before_until modified_until o);
        cbn [outcome]; rewrite ?IH; reflexivity.
Qed.

Lemma input_files_loop_skips listing matched unmatched :
  skips (get_input_files_for_table_loop pattern matcher modified_since
           modified_until listing matched unmatched)
  = List.length (filter (fun o => Size o =? 0) (gen_items listing)).
Proof.
  revert matched unmatched.
  induction listing as [|e|o listing IH]; intros;
    cbn [get_input_files_for_table_loop gen_items].
  - now destruct (matched =? 0)%nat.
  - reflexivity.
  - cbn [filter]. destruct (Size o =? 0).
    + unfold skip. cbn [bind skips List.length]. now rewrite IH.
    + destruct (matcher (Key o)); [|apply IH].
      fold_window o.
      destruct (after_since modified_since o), (before_until modified_until o);
        cbn [skips]; rewrite ?IH; reflexivity.
Qed.

End Filter.

Lemma matched_objects_nil matcher listing :
  Forall (fun o => Size o = 0 \/ matcher (Key o) = false) listing ->
  matched_objects matcher listing = [].
Proof.
  induction 1 as [|o listing Ho _ IH]; [reflexivity|].
  unfold matched_objects in *. cbn [filter]. rewrite IH.
  destruct Ho as [-> | ->]; [reflexivity|]. now rewrite andb_false_r.
Qed.

Lemma matched_objects_not_nil matcher listing :
  Exists (fun o => Size o <> 0 /\ matcher (Key o) = true) listing ->
  matched_objects matcher listing <> [].
Proof.
  induction 1 as [o listing [Hsize Hm]|o listing _ IH];
    unfold matched_objects in *; cbn [filter].
  - apply Z.eqb_neq in Hsize. now rewrite Hsize, Hm.
  - now destruct (negb (Size o =? 0) && matcher (Key o)).
Qed.

(** The filter on a listing that completes.  When no listed object
    counts as a match of the pattern (each is zero-byte or has a key the
    pattern does not match), the filter yields nothing and raises the
    error that names the pattern; when some non-empty object matches, it
    ends without that error, whatever the time window. *)
Theorem no_match_error_iff_nothing_matched
    (re_compile : string -> option (string -> bool))
    (paginate : string -> option string -> list page)
    (cfg : config) (spec : table_spec) (modified_since modified_until : option Z)
    (matcher : string -> bool) :
  re_compile (search_pattern spec) = Some matcher ->
  let listing := list_files_in_bucket paginate (bucket cfg) (search_prefix spec) in
  let files :=
    get_input_files_for_table re_compile paginate cfg spec
      modified_since modified_until in
  gen_end listing = None ->
  (Forall (fun o => Size o = 0 \/ matcher (Key o) = false) (gen_items listing) ->
     yields files = [] /\ outcome files = inl (NoFilesFound (search_pattern spec)))
  /\ (Exists (fun o => Size o <> 0 /\ matcher (Key o) = true) (gen_items listing) ->
     outcome files = inr tt).
Proof.
  intros Hre listing files Hend. unfold files, get_input_files_for_table.
  rewrite Hre. fold listing. split.
  - intros H. apply matched_objects_nil in H.
    rewrite input_files_loop_yields, input_files_loop_outcome, Hend, H. now split.
  - intros H. apply matched_objects_not_nil in H.
    rewrite input_files_loop_outcome, Hend.
    destruct (matched_objects matcher (gen_items listing)); [contradiction|reflexivity].
Qed.

(** A bucket whose only matching object is zero-byte, and a bucket whose
    only matching object lies before the window. *)
Lemma no_match_error_iff_nothing_matched_witness :
  outcome (get_input_files_for_table re_literal
             (one_page [ {| Key := "a.csv"; LastModified := 7; Size := 0 |} ])
             cfg0 (spec_of "a") (Some 0) None)
  = inl (NoFilesFound "a")
  /\ outcome (get_input_files_for_table re_literal
             (one_page [ {| Key := "a.csv"; LastModified := 7; Size := 3 |} ])
             cfg0 (spec_of "a") (Some 9) None)
     = inr tt.
Proof.
  split.
  - apply (proj1 (no_match_error_iff_nothing_matched re_literal
             (one_page [ {| Key := "a.csv"; LastModified := 7; Size := 0 |} ])
             cfg0 (spec_of "a") (Some 0) None (search_literal "a") eq_refl eq_refl)).
    repeat constructor.
  - apply (proj2 (no_match_error_iff_nothing_matched re_literal
             (one_page [ {| Key := "a.csv"; LastModified := 7; Size := 3 |} ])
             cfg0 (spec_of "a") (Some 9) None (search_literal "a") eq_refl eq_refl)).
    constructor. split; [discriminate|reflexivity].
Defined.

(** C6, as the code has it.  The lower bound is exclusive: a non-empty
    object whose key matches and which lies before [until] is yielded
    exactly when its modification time is strictly later than [since]. *)
Theorem since_is_exclusive_lower_bound
    (re_compile : string -> option (string -> bool))
    (paginate : string -> option string -> list page)
    (cfg : config) (spec : table_spec) (since : Z) (modified_until : option Z)
    (matcher : string -> bool) (o : S3Object) :
  re_compile (search_pattern spec) = Some matcher ->
  In o (gen_items (list_files_in_bucket paginate (bucket cfg) (search_prefix spec))) ->
  Size o <> 0 ->
  matcher (Key o) = true ->
  before_until modified_until o = true ->
  In (to_s3_file o)
     (yields (get_input_files_for_table re_compile paginate cfg spec
                (Some since) modified_until))
  <-> since < LastModified o.
Proof.
  intros Hre Hin Hsize Hm Hu. unfold get_input_files_for_table. rewrite Hre.
  rewrite input_files_loop_yields, in_map_iff. split.
  - intros (o' & Heq & Ho'). apply filter_In in Ho' as [_ Hw].
    apply andb_prop in Hw as [Hs _]. unfold after_since in Hs.
    apply Z.ltb_lt in Hs. injection Heq as _ Hlm. lia.
  - intros Hlt. exists o. split; [reflexivity|].
    apply filter_In. split.
    + apply filter_In. split; [exact Hin|].
      apply Z.eqb_neq in Hsize. now rewrite Hsize, Hm.
    + unfold in_window, after_since. rewrite Hu, andb_true_r. now apply Z.ltb_lt.
Qed.

Lemma since_is_exclusive_lower_bound_witness :
  In {| key := "a.csv"; last_modified := 6 |}
     (yields (get_input_files_for_table re_literal
                (one_page [ {| Key := "a.csv"; LastModified := 6; Size := 3 |} ])
                cfg0 (spec_of "a") (Some 5) None)).
Proof.
  apply (proj2 (since_is_exclusive_lower_bound re_literal
           (one_page [ {| Key := "a.csv"; LastModified := 6; Size := 3 |} ])
           cfg0 (spec_of "a") 5 None (search_literal "a")
           {| Key := "a.csv"; LastModified := 6; Size := 3 |}
           eq_refl (or_introl eq_refl) ltac:(discriminate) eq_refl eq_refl)).
  reflexivity.
Defined.

(** C6, as claimed, fails: a non-empty object whose key matches and whose
    modification time equals [since] is not yielded. *)
Lemma since_equal_is_not_yielded :
  re_literal "a" = Some (search_literal "a")
  /\ search_literal "a" "a.csv" = true
  /\ Size {| Key := "a.csv"; LastModified := 5; Size := 3 |} <> 0
  /\ LastModified {| Key := "a.csv"; LastModified := 5; Size := 3 |} = 5
  /\ before_until None {| Key := "a.csv"; LastModified := 5; Size := 3 |} = true
  /\ ~ In {| key := "a.csv"; last_modified := 5 |}
         (yields (get_input_files_for_table re_literal
                    (one_page [ {| Key := "a.csv"; LastModified := 5; Size := 3 |} ])
                    cfg0 (spec_of "a") (Some 5) None)).
Proof.
  repeat split; try reflexivity; try discriminate.
  intros H. exact H.
Qed.

(** ** The file selector *)

Lemma geb_false a b : a < b -> (a >=? b) = false.
Proof. intros H. rewrite Z.geb_leb. apply Z.leb_gt. exact H. Qed.

Section Selector.

Variable get_file_handle : string -> string -> file_handle.
Variable Y : Type.
Variables (cfg : config) (max_files : Z).

Local Abbreviation loop := (@get_files_to_sample_loop get_file_handle Y cfg).

(** An object whose key ends in [.tar.gz] is skipped. *)
Lemma selector_skips_tar_gz f rest sampled :
  PyStr.endswith (key f) ".tar.gz" = true ->
  Z.of_nat (List.length sampled) < max_files ->
  loop (Yield f rest) max_files sampled = Skipped (loop rest max_files sampled).
Proof.
  intros Hend Hlen. cbn [get_files_to_sample_loop].
  rewrite (geb_false _ _ Hlen), (endswith_nonempty _ _ Hend) by discriminate.
  rewrite Hend.
  now destruct (negb _ || _).
Qed.

(** An object whose key ends in a dot and a supported extension other
    than [zip] becomes a direct candidate. *)
Lemma selector_keeps_direct f rest sampled pre ext :
  key f = pre ++ String "." ext ->
  free_of "." ext = true -> free_of "/" ext = true -> PyStr.lower ext = ext ->
  PyStr.mem ext OTHER_FILES = true ->
  PyStr.endswith (key f) ".tar.gz" = false ->
  Z.of_nat (List.length sampled) < max_files ->
  loop (Yield f rest) max_files sampled
  = loop rest max_files
      (sampled ++ [direct (key f) (get_file_handle (bucket cfg) (key f)) ext]).
Proof.
  intros Hkey Hdot Hslash Hlow Hmem Hend Hlen.
  destruct (key_extension pre ext Hdot Hslash Hlow) as (Hext & Hname & _ & Hne).
  rewrite <- Hkey in Hext, Hname, Hne.
  cbn [get_files_to_sample_loop].
  rewrite (geb_false _ _ Hlen), Hne, Hname, Hext, Hend, Hmem.
  assert (Hx : PyStr.nonempty ext = true).
  { destruct ext; [discriminate Hmem|reflexivity]. }
  rewrite Hx. cbn [negb orb].
  destruct (String.eqb_spec ext "zip") as [->|_]; [discriminate Hmem|reflexivity].
Qed.

(** A zip object is replaced by its supported members. *)
Lemma selector_expands_zip f rest sampled pre files :
  key f = pre ++ ".zip" ->
  zip_infer (get_file_handle (bucket cfg) (key f)) = inr files ->
  Z.of_nat (List.length sampled) < max_files ->
  loop (Yield f rest) max_files sampled
  = loop rest max_files
      (sampled ++ map (unzipped (key f)) (filter supported_member files)).
Proof.
  intros Hkey Hzip Hlen.
  destruct (key_extension pre "zip" eq_refl eq_refl eq_refl) as (Hext & Hname & _ & Hne).
  change (pre ++ String "." "zip") with (pre ++ ".zip") in Hext, Hname, Hne.
  rewrite <- Hkey in Hext, Hname, Hne.
  cbn [get_files_to_sample_loop].
  rewrite (geb_false _ _ Hlen), Hne, Hname, Hext, Hzip.
  rewrite (endswith_last_char (key f) ".tar.gz");
    [reflexivity|discriminate|rewrite Hkey, last_char_app; discriminate].
Qed.

(** The selector yields nothing of its own. *)
Lemma selector_yields_nothing s3_files sampled :
  yields (loop s3_files max_files sampled) = [].
Proof.
  revert sampled.
  induction s3_files as [r|e|f rest IH|rest IH]; intros; cbn [get_files_to_sample_loop];
    try reflexivity; [|apply IH].
  destruct (_ >=? _); [reflexivity|].
  destruct (PyStr.nonempty _); [|apply IH].
  destruct (negb _ || _); [apply IH|].
  destruct (PyStr.endswith _ _); [apply IH|].
  destruct (String.eqb _ "zip").
  - destruct (zip_infer _); [reflexivity|apply IH].
  - destruct (PyStr.mem _ _); apply IH.
Qed.

End Selector.

Lemma supported_member_csv m p : name m = p ++ ".csv" -> supported_member m = true.
Proof.
  intros Hn. unfold supported_member. rewrite Hn.
  change (p ++ ".csv") with (p ++ String "." "csv").
  rewrite pop_split_ext by reflexivity.
  rewrite endswith_last_char;
    [reflexivity|discriminate|rewrite last_char_app; discriminate].
Qed.

Lemma supported_member_exe m q : name m = q ++ ".exe" -> supported_member m = false.
Proof.
  intros Hn. unfold supported_member. rewrite Hn.
  change (q ++ ".exe") with (q ++ String "." "exe").
  rewrite pop_split_ext by reflexivity. reflexivity.
Qed.

(** C9.  A zip object with two members, one named [*.csv] and one named
    [*.exe] (in either order), gives exactly one candidate: the [.csv]
    member, tagged [unzipped]. *)
Theorem zip_csv_and_exe_gives_the_csv {Y}
    (get_file_handle : string -> string -> file_handle)
    (cfg : config) (max_files : Z) (f : s3_file) (pre p q : string)
    (csv_member exe_member : file_handle) (files : list file_handle) :
  key f = pre ++ ".zip" ->
  zip_infer (get_file_handle (bucket cfg) (key f)) = inr files ->
  files = [csv_member; exe_member] \/ files = [exe_member; csv_member] ->
  name csv_member = p ++ ".csv" ->
  name exe_member = q ++ ".exe" ->
  1 <= max_files ->
  @get_files_to_sample get_file_handle Y cfg (Yield f (Ret tt)) max_files
  = Ret [ {| c_type := Some "unzipped"; c_s3_path := key f;
             c_file_handle := csv_member; c_extension := None |} ].
Proof.
  intros Hkey Hzip Hfiles Hcsv Hexe Hmax. unfold get_files_to_sample.
  rewrite (selector_expands_zip get_file_handle Y cfg max_files f (Ret tt) [] pre files Hkey Hzip)
    by (simpl; lia).
  cbn [get_files_to_sample_loop app].
  destruct Hfiles as [-> | ->]; cbn [filter];
    rewrite (supported_member_csv _ _ Hcsv), (supported_member_exe _ _ Hexe);
    reflexivity.
Qed.

Lemma zip_csv_and_exe_gives_the_csv_witness :
  @get_files_to_sample
     (fun _ _ => zip_body [zip_member "rows.csv"; zip_member "setup.exe"])
     unit cfg0 (Yield {| key := "in/data.zip"; last_modified := 1 |} (Ret tt)) 5
  = Ret [ {| c_type := Some "unzipped"; c_s3_path := "in/data.zip";
             c_file_handle := zip_member "rows.csv"; c_extension := None |} ].
Proof.
  apply (@zip_csv_and_exe_gives_the_csv unit
           (fun _ _ => zip_body [zip_member "rows.csv"; zip_member "setup.exe"])
           cfg0 5 {| key := "in/data.zip"; last_modified := 1 |}
           "in/data" "rows" "setup"
           (zip_member "rows.csv") (zip_member "setup.exe")
           [zip_member "rows.csv"; zip_member "setup.exe"]);
    [reflexivity | reflexivity | left; reflexivity | reflexivity | reflexivity | lia].
Defined.

(** ** The sampling orchestrator *)

Section Orchestrator.

Variable get_file_handle : string -> string -> file_handle.
Variable ParquetFile : string -> string -> exn + parquet_file.
Variables (cfg : config) (spec : table_spec).

Lemma check_yields_nothing {Y} records s3_path :
  yields (@check_key_properties_and_date_overrides_for_jsonl_file Y spec records s3_path) = [].
Proof.
  unfold check_key_properties_and_date_overrides_for_jsonl_file.
  destruct (observed_keys _ _ _); [reflexivity|].
  destruct (declared (key_properties spec)), (declared (date_overrides spec));
    repeat match goal with
           | |- context [bool_decide ?P] => destruct (bool_decide P)
           end; reflexivity.
Qed.

Lemma sampling_gz_file_yields_nothing {Y} s3_path fh sample_rate :
  yields (@sampling_gz_file Y spec s3_path fh sample_rate) = [].
Proof.
  unfold sampling_gz_file.
  destruct (PyStr.endswith s3_path _); [reflexivity|].
  destruct (get_file_name_from_gzfile fh) as [[]|n]; try reflexivity.
  destruct (PyStr.nonempty n); [|reflexivity].
  destruct (PyStr.endswith n _); [reflexivity|].
  now destruct (gz_read fh).
Qed.

Lemma sample_file_yields_nothing {Y} s3_bucket s3_path fh sample_rate extension :
  yields (@sample_file ParquetFile Y spec s3_bucket s3_path fh sample_rate extension) = [].
Proof.
  unfold sample_file. destruct extension as [extension|]; [|reflexivity].
  destruct (negb _ || _); [reflexivity|].
  destruct (PyStr.mem _ _).
  { destruct (csv_iterator fh) as [|[]]; reflexivity. }
  destruct (String.eqb extension "gz"); [apply sampling_gz_file_yields_nothing|].
  destruct (String.eqb extension "jsonl").
  { destruct (peek _) as [|[[]|]]; try reflexivity.
    rewrite yields_bind, check_yields_nothing.
    now destruct (outcome _). }
  destruct (String.eqb extension "parquet").
  { destruct (peek _) as [|[[]|]]; reflexivity. }
  now destruct (String.eqb extension "zip").
Qed.

(** At most [max_records] rows come out of one candidate. *)
Lemma sample_one_bound sample_rate max_records c :
  (List.length (yields (sample_one ParquetFile cfg spec sample_rate max_records c))
   <= Z.to_nat max_records)%nat.
Proof.
  unfold sample_one. rewrite yields_try_except_skip, yields_bind.
  rewrite sample_file_yields_nothing. cbn [app].
  destruct (outcome _) as [|records]; [simpl; lia|].
  unfold islice_stop. destruct (max_records <? 0); [simpl; lia|].
  cbn [bind]. rewrite yields_yield_from. apply gen_items_islice_length.
Qed.

End Orchestrator.

(** What a [for] loop yields comes from a prefix of the list it walks. *)
Lemma yields_for_each {Y A} (l : list A) (body : A -> Prog Y unit) :
  exists done todo,
    l = (done ++ todo)%list
    /\ yields (for_each l body) = flat_map (fun x => yields (body x)) done.
Proof.
  induction l as [|x l (done & todo & Hl & Hy)].
  - now exists [], [].
  - cbn [for_each]. rewrite yields_bind.
    destruct (outcome (body x)).
    + exists [x], l. split; [reflexivity|]. cbn [flat_map]. reflexivity.
    + exists (x :: done), todo. split; [now rewrite Hl|].
      cbn [flat_map]. now rewrite Hy.
Qed.

Lemma flat_map_length_bound {A B} (f : A -> list B) (l : list A) n :
  Forall (fun x => (List.length (f x) <= n)%nat) l ->
  (List.length (flat_map f l) <= List.length l * n)%nat.
Proof.
  induction 1 as [|x l Hx _ IH]; cbn [flat_map List.length]; [lia|].
  rewrite List.length_app. lia.
Qed.

(** C8.  The rows [sample_files] yields come from at most [max_files]
    candidates (a prefix of what the selector returned, however many
    candidates zip expansion put there), each giving at most
    [max_records] rows: at most [max_files * max_records] rows in all. *)
Theorem sample_files_is_bounded
    (get_file_handle : string -> string -> file_handle)
    (ParquetFile : string -> string -> exn + parquet_file)
    (cfg : config) (spec : table_spec) (s3_files : Prog s3_file unit)
    (sample_rate max_records max_files : Z) :
  let rows :=
    yields (sample_files get_file_handle ParquetFile cfg spec s3_files
              sample_rate max_records max_files) in
  let rows_of c := yields (sample_one ParquetFile cfg spec sample_rate max_records c) in
  exists sampled : list candidate,
    (List.length sampled <= Z.to_nat (effective_max_files cfg max_files))%nat
    /\ rows = flat_map rows_of sampled
    /\ Forall (fun c => (List.length (rows_of c) <= Z.to_nat max_records)%nat) sampled
    /\ (List.length rows
        <= Z.to_nat (effective_max_files cfg max_files) * Z.to_nat max_records)%nat.
Proof.
  intros rows rows_of.
  assert (Hall : forall l : list candidate,
             Forall (fun c => (List.length (rows_of c) <= Z.to_nat max_records)%nat) l).
  { intros l. apply Forall_forall. intros c _. apply sample_one_bound. }
  assert (Hnil : rows = [] -> exists sampled : list candidate,
    (List.length sampled <= Z.to_nat (effective_max_files cfg max_files))%nat
    /\ rows = flat_map rows_of sampled
    /\ Forall (fun c => (List.length (rows_of c) <= Z.to_nat max_records)%nat) sampled
    /\ (List.length rows
        <= Z.to_nat (effective_max_files cfg max_files) * Z.to_nat max_records)%nat).
  { intros ->. exists []. repeat split; simpl; auto; lia. }
  unfold rows, sample_files, get_files_to_sample in *.
  fold (effective_max_files cfg max_files) in *.
  set (m := effective_max_files cfg max_files) in *.
  rewrite yields_bind, selector_yields_nothing in *. cbn [app] in *.
  destruct (outcome _) as [e|files]; [now apply Hnil|].
  unfold islice_stop in *. destruct (m <? 0); [now apply Hnil|].
  cbn [bind] in *.
  destruct (yields_for_each (firstn (Z.to_nat m) files)
              (sample_one ParquetFile cfg spec sample_rate max_records))
    as (done & todo & Hl & Hy).
  assert (Hlen : (List.length done <= Z.to_nat m)%nat).
  { pose proof (List.firstn_le_length (Z.to_nat m) files) as H1.
    rewrite Hl, List.length_app in H1. lia. }
  exists done. rewrite Hy. fold rows_of. repeat split; auto.
  etransitivity; [apply flat_map_length_bound, Hall|].
  apply Nat.mul_le_mono_r. exact Hlen.
Qed.

(** ** Whole runs *)

Section Run.

Variable re_compile : string -> option (string -> bool).
Variable paginate : string -> option string -> list page.
Variable get_file_handle : string -> string -> file_handle.
Variable ParquetFile : string -> string -> exn + parquet_file.
Variable generate_schema : list pyval -> table_spec -> dict.
Variables (cfg : config) (spec : table_spec).

Local Abbreviation files_of since until :=
  (get_input_files_for_table re_compile paginate cfg spec since until).

(** The filter on a bucket of one non-empty object whose key matches. *)
Lemma single_object_files matcher o since until :
  re_compile (search_pattern spec) = Some matcher ->
  list_files_in_bucket paginate (bucket cfg) (search_prefix spec) = GYield o GStop ->
  Size o <> 0 ->
  matcher (Key o) = true ->
  files_of since until
  = if in_window since until o then Yield (to_s3_file o) (Ret tt) else Ret tt.
Proof.
  intros Hre Hlist Hsize Hm. unfold get_input_files_for_table.
  rewrite Hre, Hlist. cbn [get_input_files_for_table_loop].
  apply Z.eqb_neq in Hsize. rewrite Hsize, Hm. fold_window o.
  unfold in_window.
  now destruct (after_since since o), (before_until until o).
Qed.

(** The filter on a bucket of one zero-byte object. *)
Lemma single_empty_object_files matcher o since until :
  re_compile (search_pattern spec) = Some matcher ->
  list_files_in_bucket paginate (bucket cfg) (search_prefix spec) = GYield o GStop ->
  Size o = 0 ->
  files_of since until = Skipped (Raise (NoFilesFound (search_pattern spec))).
Proof.
  intros Hre Hlist Hsize. unfold get_input_files_for_table.
  rewrite Hre, Hlist. cbn [get_input_files_for_table_loop].
  now rewrite Hsize.
Qed.

(** C3, as the code has it.  The bucket holds one object, its key ends
    in [.tar.gz] and matches the pattern.  If the object is zero-byte the
    filter skips it and the run fails with the no-match error, the
    counter one higher.  If it is non-empty the run returns the schema
    with empty properties and raises nothing; the selector skips the file
    (counter one higher) when the object lies in the time window, and
    never sees it otherwise. *)
Theorem tar_gz_only_bucket {Y} (matcher : string -> bool) (o : S3Object)
    (skipped_files_count : nat) :
  re_compile (search_pattern spec) = Some matcher ->
  list_files_in_bucket paginate (bucket cfg) (search_prefix spec) = GYield o GStop ->
  PyStr.endswith (Key o) ".tar.gz" = true ->
  matcher (Key o) = true ->
  let schema :=
    @get_sampled_schema_for_table re_compile paginate get_file_handle
      ParquetFile generate_schema Y cfg spec in
  (Size o = 0 ->
     run schema skipped_files_count
     = (inl (NoFilesFound (search_pattern spec)), S skipped_files_count))
  /\ (Size o <> 0 -> 1 <= effective_max_files cfg 5 ->
     run schema skipped_files_count
     = (inr empty_schema,
        if in_window (Some (start_date cfg)) (end_date cfg) o
        then S skipped_files_count else skipped_files_count)).
Proof.
  intros Hre Hlist Hend Hm schema. unfold schema, get_sampled_schema_for_table.
  split.
  - intros Hsize.
    rewrite (single_empty_object_files matcher o _ _ Hre Hlist Hsize).
    unfold run. simpl. f_equal. lia.
  - intros Hsize Hmax.
    rewrite (single_object_files matcher o _ _ Hre Hlist Hsize Hm).
    unfold sample_files, get_files_to_sample.
    fold (effective_max_files cfg 5).
    set (m := effective_max_files cfg 5) in *.
    assert (Hstop : forall Y', @islice_stop Y' m = Ret (Z.to_nat m)).
    { intros Y'. unfold islice_stop.
      destruct (Z.ltb_spec m 0); [lia|reflexivity]. }
    destruct (in_window _ _ o).
    + rewrite selector_skips_tar_gz by (simpl; auto; lia).
      cbn [get_files_to_sample_loop bind]. rewrite Hstop.
      cbn [bind]. rewrite firstn_nil. unfold run. simpl. f_equal. lia.
    + cbn [get_files_to_sample_loop bind]. rewrite Hstop.
      cbn [bind]. rewrite firstn_nil. unfold run. simpl. f_equal. lia.
Qed.

End Run.

Lemma tar_gz_only_bucket_witness :
  run (@get_sampled_schema_for_table re_literal
         (one_page [ {| Key := "report.tar.gz"; LastModified := 9; Size := 0 |} ])
         (fun _ _ => empty_body) no_parquet first_row_schema unit
         cfg0 (spec_of "report")) 0
  = (inl (NoFilesFound "report"), 1%nat)
  /\ run (@get_sampled_schema_for_table re_literal
         (one_page [ {| Key := "report.tar.gz"; LastModified := 9; Size := 40 |} ])
         (fun _ _ => empty_body) no_parquet first_row_schema unit
         cfg0 (spec_of "report")) 0
     = (inr empty_schema, 1%nat).
Proof.
  split.
  - apply (proj1 (@tar_gz_only_bucket re_literal
             (one_page [ {| Key := "report.tar.gz"; LastModified := 9; Size := 0 |} ])
             (fun _ _ => empty_body) no_parquet first_row_schema
             cfg0 (spec_of "report") unit (search_literal "report")
             {| Key := "report.tar.gz"; LastModified := 9; Size := 0 |} 0%nat
             eq_refl eq_refl eq_refl eq_refl)).
    reflexivity.
  - apply (proj2 (@tar_gz_only_bucket re_literal
             (one_page [ {| Key := "report.tar.gz"; LastModified := 9; Size := 40 |} ])
             (fun _ _ => empty_body) no_parquet first_row_schema
             cfg0 (spec_of "report") unit (search_literal "report")
             {| Key := "report.tar.gz"; LastModified := 9; Size := 40 |} 0%nat
             eq_refl eq_refl eq_refl eq_refl)).
    + discriminate.
    + unfold effective_max_files. simpl. lia.
Defined.

(** C3, as claimed, fails: the bucket holds only a non-empty
    [report.tar.gz] that matches the pattern; the file is skipped, the
    counter ends at 1, and the run returns the empty schema instead of
    failing with the no-match error. *)
Lemma tar_gz_run_returns_empty_schema :
  search_literal "report" "report.tar.gz" = true
  /\ PyStr.endswith "report.tar.gz" ".tar.gz" = true
  /\ run (@get_sampled_schema_for_table re_literal
            (one_page [ {| Key := "report.tar.gz"; LastModified := 9; Size := 40 |} ])
            (fun _ _ => empty_body) no_parquet first_row_schema unit
            cfg0 (spec_of "report")) 0
     = (inr empty_schema, 1%nat)
  /\ outcome (@get_sampled_schema_for_table re_literal
            (one_page [ {| Key := "report.tar.gz"; LastModified := 9; Size := 40 |} ])
            (fun _ _ => empty_body) no_parquet first_row_schema unit
            cfg0 (spec_of "report"))
     <> inl (NoFilesFound "report").
Proof. repeat split; try reflexivity. discriminate. Qed.

(** ** Merging the fixed metadata columns *)

Lemma dict_get_set_eq d k v : dict_get (dict_set d k v) k = Some v.
Proof.
  induction d as [|[k0 v0] d IH]; simpl.
  - now rewrite String.eqb_refl.
  - destruct (String.eqb_spec k0 k) as [->|Hne]; simpl.
    + now rewrite String.eqb_refl.
    + apply String.eqb_neq in Hne. now rewrite Hne.
Qed.

Lemma dict_get_set_neq d k k' v :
  k <> k' -> dict_get (dict_set d k v) k' = dict_get d k'.
Proof.
  intros Hne. induction d as [|[k0 v0] d IH]; simpl.
  - apply String.eqb_neq in Hne. now rewrite Hne.
  - destruct (String.eqb_spec k0 k) as [->|Hk]; simpl.
    + apply String.eqb_neq in Hne. now rewrite Hne.
    + now rewrite IH.
Qed.

(** [merge_dicts] is the loop over the keys of [second], started from a
    copy of [first]. *)
Lemma merge_dicts_fold first second :
  merge_dicts first second
  = fold_left (fun to_return kv =>
                 dict_set to_return (fst kv) (merged_value first (fst kv) (snd kv)))
              second first.
Proof.
  unfold merge_dicts. cbn [merge_onto].
  generalize first at 2 4 as to_return.
  induction second as [|[k v] second IH]; intros to_return; [reflexivity|].
  cbn [fold_left fst snd]. rewrite <- IH. f_equal.
  unfold merged_value, merge_dicts.
  destruct (dict_get first k) as [[]|]; try reflexivity.
  destruct v; reflexivity.
Qed.

Lemma fold_set_other (step : string -> pyval -> pyval) second to_return k :
  ~ In k (dict_keys second) ->
  dict_get (fold_left (fun acc kv => dict_set acc (fst kv) (step (fst kv) (snd kv)))
                      second to_return) k
  = dict_get to_return k.
Proof.
  revert to_return. induction second as [|[k0 v0] second IH]; intros to_return Hk;
    [reflexivity|].
  cbn [fold_left fst snd]. rewrite IH.
  - apply dict_get_set_neq. intros ->. apply Hk. now left.
  - intros H. apply Hk. now right.
Qed.

(** Every key of [second] ends up in the merge, with the value the three
    branches of the loop give it. *)
Lemma merge_dicts_get first second k v :
  NoDup (dict_keys second) -> In (k, v) second ->
  dict_get (merge_dicts first second) k = Some (merged_value first k v).
Proof.
  rewrite merge_dicts_fold. generalize first at 2 as to_return.
  induction second as [|[k0 v0] second IH]; intros to_return Hnd Hin; [destruct Hin|].
  cbn [dict_keys map fst] in Hnd. apply NoDup_cons_iff in Hnd as [Hk0 Hnd].
  cbn [fold_left fst snd]. destruct Hin as [Heq|Hin].
  - injection Heq as -> ->.
    rewrite (fold_set_other (merged_value first)) by exact Hk0.
    apply dict_get_set_eq.
  - now apply IH.
Qed.

Lemma metadata_schema_keys_nodup : NoDup (dict_keys metadata_schema).
Proof.
  cbn. repeat constructor; cbn; intuition discriminate.
Qed.

(** C4, as the code has it.  A run that completes after sampling at
    least one row returns a schema whose properties hold the four fixed
    metadata columns; each has its fixed descriptor, unless the inferred
    schema gives that column a mapping, in which case it has the recursive
    merge of the inferred mapping with the fixed one.  A run that
    completes without a sampled row returns the schema with empty
    properties. *)
Theorem metadata_columns_when_rows_sampled {Y}
    (re_compile : string -> option (string -> bool))
    (paginate : string -> option string -> list page)
    (get_file_handle : string -> string -> file_handle)
    (ParquetFile : string -> string -> exn + parquet_file)
    (generate_schema : list pyval -> table_spec -> dict)
    (cfg : config) (spec : table_spec) (schema : pyval) :
  let samples :=
    yields (sample_files get_file_handle ParquetFile cfg spec
              (get_input_files_for_table re_compile paginate cfg spec
                 (Some (start_date cfg)) (end_date cfg))
              5 1000 5) in
  outcome (@get_sampled_schema_for_table re_compile paginate
             get_file_handle ParquetFile generate_schema Y cfg spec)
  = inr schema ->
  (samples = [] -> schema = empty_schema)
  /\ (samples <> [] ->
      forall column fixed, In (column, PDict fixed) metadata_schema ->
        dict_get (schema_properties schema) column
        = Some (PDict match dict_get (generate_schema samples spec) column with
                      | Some (PDict inferred) => merge_dicts inferred fixed
                      | _ => fixed
                      end)).
Proof.
  intros samples. unfold get_sampled_schema_for_table.
  rewrite outcome_bind, outcome_collect. fold samples.
  destruct (outcome _) as [e|[]]; [discriminate|].
  destruct samples as [|row rows] eqn:E; cbn [outcome]; intros [= <-].
  - split; [reflexivity|congruence].
  - split; [discriminate|]. intros _ column fixed Hin.
    cbn [schema_properties dict_get]. 
    change (String.eqb "type" "properties") with false.
    change (String.eqb "properties" "properties") with true.
    cbv iota.
    rewrite (merge_dicts_get _ _ _ _ metadata_schema_keys_nodup Hin).
    unfold merged_value.
    now destruct (dict_get _ column) as [[]|].
Qed.

(** A bucket with one CSV object of one row. *)
Lemma metadata_columns_when_rows_sampled_witness :
  dict_get
    (schema_properties
       (PDict [("type", PStr "object");
               ("properties",
                 PDict (merge_dicts [("id", PDict [("type", PStr "string")])]
                                    metadata_schema))]))
    SDC_SOURCE_LINENO_COLUMN
  = Some (PDict [("type", PStr "integer")]).
Proof.
  refine (proj2 (@metadata_columns_when_rows_sampled unit re_literal
            (one_page [ {| Key := "a.csv"; LastModified := 9; Size := 4 |} ])
            (fun _ _ => csv_member "" [[("id", PStr "1")]])
            no_parquet first_row_schema cfg0 (spec_of "a")
            (PDict [("type", PStr "object");
                    ("properties",
                      PDict (merge_dicts [("id", PDict [("type", PStr "string")])]
                                         metadata_schema))])
            eq_refl)
          _ SDC_SOURCE_LINENO_COLUMN [("type", PStr "integer")] _).
  - discriminate.
  - cbn. tauto.
Defined.

(** C4, as claimed, fails: a run over a bucket whose only matching object
    holds blank lines completes, and the schema it returns has no
    [_sdc_source_bucket] property. *)
Lemma empty_run_has_no_metadata_columns :
  outcome (@get_sampled_schema_for_table re_literal
             (one_page [ {| Key := "a.jsonl"; LastModified := 9; Size := 2 |} ])
             (fun _ _ => jsonl_body [Blank; Blank]) no_parquet first_row_schema unit
             cfg0 (spec_of "a"))
  = inr empty_schema
  /\ dict_get (schema_properties empty_schema) SDC_SOURCE_BUCKET_COLUMN = None.
Proof. split; reflexivity. Qed.

(** ** A JSON scalar on a sampled line *)

(** C10.  When the first line of a JSONL object parses to a value without
    a length (a number, a boolean, null), the decoder raises [TypeError];
    the handler of [sample_files] lets it through, and the run ends with
    that exception instead of skipping the file. *)
Theorem jsonl_scalar_line_aborts_run {Y}
    (re_compile : string -> option (string -> bool))
    (paginate : string -> option string -> list page)
    (get_file_handle : string -> string -> file_handle)
    (ParquetFile : string -> string -> exn + parquet_file)
    (generate_schema : list pyval -> table_spec -> dict)
    (cfg : config) (spec : table_spec) (matcher : string -> bool)
    (o : S3Object) (pre : string) (v : pyval) (rest : list line)
    (skipped_files_count : nat) :
  re_compile (search_pattern spec) = Some matcher ->
  list_files_in_bucket paginate (bucket cfg) (search_prefix spec) = GYield o GStop ->
  Key o = pre ++ ".jsonl" ->
  Size o <> 0 ->
  matcher (Key o) = true ->
  in_window (Some (start_date cfg)) (end_date cfg) o = true ->
  1 <= effective_max_files cfg 5 ->
  lines (get_file_handle (bucket cfg) (Key o)) = Json v :: rest ->
  py_len v = None ->
  get_records_for_jsonl (Key o) 5 (lines (get_file_handle (bucket cfg) (Key o)))
  = GRaise (TypeError "object has no len()")
  /\ is_parse_error (TypeError "object has no len()") = false
  /\ run (@get_sampled_schema_for_table re_compile paginate
            get_file_handle ParquetFile generate_schema Y cfg spec)
         skipped_files_count
     = (inl (TypeError "object has no len()"), skipped_files_count).
Proof.
  intros Hre Hlist Hkey Hsize Hm Hwin Hmax Hlines Hlen.
  assert (Hrec : get_records_for_jsonl (Key o) 5
                   (lines (get_file_handle (bucket cfg) (Key o)))
                 = GRaise (TypeError "object has no len()")).
  { unfold get_records_for_jsonl. rewrite Hlines.
    cbn [get_records_for_jsonl_loop]. simpl. now rewrite Hlen. }
  split; [exact Hrec|]. split; [reflexivity|].
  unfold get_sampled_schema_for_table.
  rewrite (single_object_files re_compile paginate cfg spec
             matcher o _ _ Hre Hlist Hsize Hm), Hwin.
  unfold sample_files, get_files_to_sample.
  fold (effective_max_files cfg 5).
  set (m := effective_max_files cfg 5) in *.
  rewrite (selector_keeps_direct get_file_handle _ cfg m (to_s3_file o) (Ret tt) []
             pre "jsonl");
    [ | exact Hkey | reflexivity | reflexivity | reflexivity | reflexivity
      | cbn [to_s3_file key]; apply endswith_last_char;
        [discriminate | rewrite Hkey, last_char_app; discriminate]
      | simpl; lia ].
  cbn [get_files_to_sample_loop bind app].
  unfold islice_stop. destruct (Z.ltb_spec m 0); [lia|]. cbn [bind].
  destruct (Z.to_nat m) as [|n] eqn:En; [lia|].
  cbn [firstn for_each to_s3_file key].
  rewrite firstn_nil. cbn [for_each].
  unfold sample_one, direct.
  cbn [c_type c_s3_path c_file_handle c_extension].
  unfold sample_file.
  destruct (key_extension pre "jsonl" eq_refl eq_refl eq_refl) as (_ & _ & Hlow & _).
  change (pre ++ String "." "jsonl") with (pre ++ ".jsonl") in Hlow.
  rewrite <- Hkey in Hlow. rewrite Hlow.
  cbn [PyStr.nonempty negb orb PyStr.mem existsb].
  change (String.eqb "jsonl" "csv") with false.
  change (String.eqb "jsonl" "txt") with false.
  change (String.eqb "jsonl" "gz") with false.
  change (String.eqb "jsonl" "jsonl") with true.
  cbn [orb]. rewrite Hrec.
  unfold run. simpl. f_equal. lia.
Qed.

(** A bucket whose only object starts with the line [42]. *)
Lemma jsonl_scalar_line_aborts_run_witness :
  run (@get_sampled_schema_for_table re_literal
         (one_page [ {| Key := "in/rows.jsonl"; LastModified := 9; Size := 3 |} ])
         (fun _ _ => jsonl_body [Json (PInt 42)]) no_parquet first_row_schema unit
         cfg0 (spec_of "rows")) 0
  = (inl (TypeError "object has no len()"), 0%nat).
Proof.
  apply (@jsonl_scalar_line_aborts_run unit re_literal
           (one_page [ {| Key := "in/rows.jsonl"; LastModified := 9; Size := 3 |} ])
           (fun _ _ => jsonl_body [Json (PInt 42)]) no_parquet first_row_schema
           cfg0 (spec_of "rows") (search_literal "rows")
           {| Key := "in/rows.jsonl"; LastModified := 9; Size := 3 |}
           "in/rows" (PInt 42) [] 0%nat);
    try reflexivity; [discriminate | unfold effective_max_files; simpl; lia].
Defined.

(** With [max_sample_files] at 1, a zip of three CSV members makes the
    selector return three candidates; rows are drawn from the first
    only. *)
Example zip_expansion_is_capped :
  let members :=
    [ csv_member "a.csv" [[("id", PStr "1")]];
      csv_member "b.csv" [[("id", PStr "2")]];
      csv_member "c.csv" [[("id", PStr "3")]] ] in
  let cfg := {| bucket := "bucket"; start_date := 0; end_date := None;
                max_sample_files := Some 1 |} in
  let s3_files := Yield {| key := "all.zip"; last_modified := 1 |} (Ret tt) in
  option_map (@List.length candidate)
    (match @get_files_to_sample (fun _ _ => zip_body members) unit cfg s3_files 1 with
     | Ret l => Some l
     | _ => None
     end) = Some 3%nat
  /\ yields (sample_files (fun _ _ => zip_body members) no_parquet cfg (spec_of "all")
               s3_files 1 1000 5)
     = [PDict [("id", PStr "1")]].
Proof. split; reflexivity. Qed.

(** * Further properties of the module *)

(** ** list_files_in_bucket *)

Lemma gen_items_yield_list {A} (l : list A) (rest : Gen A) :
  gen_items (yield_list l rest) = (l ++ gen_items rest)%list.
Proof. induction l as [|a l IH]; simpl; [reflexivity|now rewrite IH]. Qed.

Lemma gen_end_yield_list {A} (l : list A) (rest : Gen A) :
  gen_end (yield_list l rest) = gen_end rest.
Proof. induction l as [|a l IH]; simpl; [reflexivity|exact IH]. Qed.

(** X1.  The lister yields the contents of the pages in order, up to the
    first page that has no [Contents]; it stops normally when every page
    has [Contents], and ends with [KeyError] otherwise. *)
Theorem lister_yields_pages_in_order
    (paginate : string -> option string -> list page)
    (bucket : string) (search_prefix : option string) :
  let listing := list_files_in_bucket paginate bucket search_prefix in
  gen_items listing = listed_objects (paginate bucket search_prefix)
  /\ gen_end listing
     = if all_pages_have_contents (paginate bucket search_prefix)
       then None else Some (KeyError "Contents").
Proof.
  unfold list_files_in_bucket.
  induction (paginate bucket search_prefix) as [|p pages [IHi IHe]];
    cbn [list_files_in_bucket_loop listed_objects all_pages_have_contents forallb];
    [now split|].
  destruct (Contents p) as [contents|]; [|now split].
  rewrite gen_items_yield_list, gen_end_yield_list. cbn [andb]. split.
  - now rewrite IHi.
  - exact IHe.
Qed.

(** ** get_input_files_for_table *)

(** X2.  With a pattern that compiles, the filter yields exactly the
    listed objects that are non-empty, have a matching key and lie in the
    window, in the order of the listing. *)
Theorem filter_yields_window_matches_in_order
    (re_compile : string -> option (string -> bool))
    (paginate : string -> option string -> list page)
    (cfg : config) (spec : table_spec) (modified_since modified_until : option Z)
    (matcher : string -> bool) :
  re_compile (search_pattern spec) = Some matcher ->
  yields (get_input_files_for_table re_compile paginate cfg spec
            modified_since modified_until)
  = map to_s3_file
      (filter (fun o => negb (Size o =? 0) && matcher (Key o)
                        && in_window modified_since modified_until o)
         (gen_items (list_files_in_bucket paginate (bucket cfg) (search_prefix spec)))).
Proof.
  intros Hre. unfold get_input_files_for_table. rewrite Hre.
  rewrite input_files_loop_yields. f_equal. unfold matched_objects.
  induction (gen_items _) as [|o l IH]; [reflexivity|].
  cbn [filter]. destruct (negb (Size o =? 0) && matcher (Key o)); cbn [andb filter].
  - now rewrite IH.
  - exact IH.
Qed.

Lemma filter_yields_window_matches_in_order_witness :
  yields (get_input_files_for_table re_literal
            (one_page [ {| Key := "b/a2.csv"; LastModified := 8; Size := 3 |};
                        {| Key := "b/a0.csv"; LastModified := 9; Size := 0 |};
                        {| Key := "b/x.csv"; LastModified := 9; Size := 3 |};
                        {| Key := "b/a1.csv"; LastModified := 2; Size := 3 |};
                        {| Key := "b/a3.csv"; LastModified := 7; Size := 5 |} ])
            cfg0 (spec_of "a") (Some 5) (Some 10))
  = [ {| key := "b/a2.csv"; last_modified := 8 |};
      {| key := "b/a3.csv"; last_modified := 7 |} ].
Proof.
  exact (filter_yields_window_matches_in_order re_literal
           (one_page [ {| Key := "b/a2.csv"; LastModified := 8; Size := 3 |};
                       {| Key := "b/a0.csv"; LastModified := 9; Size := 0 |};
                       {| Key := "b/x.csv"; LastModified := 9; Size := 3 |};
                       {| Key := "b/a1.csv"; LastModified := 2; Size := 3 |};
                       {| Key := "b/a3.csv"; LastModified := 7; Size := 5 |} ])
           cfg0 (spec_of "a") (Some 5) (Some 10) (search_literal "a") eq_refl).
Defined.

(** X3.  Draining the filter raises the skip counter once per listed
    zero-byte object, whether or not its key matches the pattern. *)
Theorem filter_skips_each_empty_object
    (re_compile : string -> option (string -> bool))
    (paginate : string -> option string -> list page)
    (cfg : config) (spec : table_spec) (modified_since modified_until : option Z)
    (matcher : string -> bool) :
  re_compile (search_pattern spec) = Some matcher ->
  skips (get_input_files_for_table re_compile paginate cfg spec
           modified_since modified_until)
  = List.length
      (filter (fun o => Size o =? 0)
         (gen_items (list_files_in_bucket paginate (bucket cfg) (search_prefix spec)))).
Proof.
  intros Hre. unfold get_input_files_for_table. rewrite Hre.
  apply input_files_loop_skips.
Qed.

Lemma filter_skips_each_empty_object_witness :
  skips (get_input_files_for_table re_literal
           (one_page [ {| Key := "a.csv"; LastModified := 8; Size := 0 |};
                       {| Key := "x.csv"; LastModified := 9; Size := 0 |};
                       {| Key := "a1.csv"; LastModified := 9; Size := 3 |} ])
           cfg0 (spec_of "a") (Some 5) None)
  = 2%nat.
Proof.
  exact (filter_skips_each_empty_object re_literal
           (one_page [ {| Key := "a.csv"; LastModified := 8; Size := 0 |};
                       {| Key := "x.csv"; LastModified := 9; Size := 0 |};
                       {| Key := "a1.csv"; LastModified := 9; Size := 3 |} ])
           cfg0 (spec_of "a") (Some 5) None (search_literal "a") eq_refl).
Defined.

(** X4.  When the listing ends with an exception (a page without
    [Contents], as for a prefix that lists nothing), the filter ends with
    that exception and not with the no-match error. *)
Theorem filter_passes_on_listing_error
    (re_compile : string -> option (string -> bool))
    (paginate : string -> option string -> list page)
    (cfg : config) (spec : table_spec) (modified_since modified_until : option Z)
    (matcher : string -> bool) (e : exn) :
  re_compile (search_pattern spec) = Some matcher ->
  gen_end (list_files_in_bucket paginate (bucket cfg) (search_prefix spec)) = Some e ->
  outcome (get_input_files_for_table re_compile paginate cfg spec
             modified_since modified_until)
  = inl e.
Proof.
  intros Hre Hend. unfold get_input_files_for_table. rewrite Hre.
  now rewrite input_files_loop_outcome, Hend.
Qed.

Lemma filter_passes_on_listing_error_witness :
  outcome (get_input_files_for_table re_literal
             (fun _ _ => [ {| Contents := None |} ])
             cfg0 (spec_of "a") (Some 5) None)
  = inl (KeyError "Contents").
Proof.
  exact (filter_passes_on_listing_error re_literal
           (fun _ _ => [ {| Contents := None |} ])
           cfg0 (spec_of "a") (Some 5) None (search_literal "a")
           (KeyError "Contents") eq_refl eq_refl).
Defined.

(** ** A run in which nothing matches *)

(** The selector on a generator that yields nothing: it passes on the
    generator's skips and its exception. *)
Lemma selector_on_silent_generator {Y}
    (get_file_handle : string -> string -> file_handle) (cfg : config)
    (s3_files : Prog s3_file unit) (max_files : Z) (sampled : list candidate) :
  yields s3_files = [] ->
  outcome (@get_files_to_sample_loop get_file_handle Y cfg s3_files max_files sampled)
  = match outcome s3_files with inl e => inl e | inr _ => inr sampled end
  /\ skips (@get_files_to_sample_loop get_file_handle Y cfg s3_files max_files sampled)
     = skips s3_files.
Proof.
  induction s3_files as [r|e|f rest IH|rest IH]; cbn [get_files_to_sample_loop yields];
    intros Hy; try discriminate; try (now split).
  cbn [outcome skips]. destruct (IH Hy) as [-> ->]. now split.
Qed.

(** X5.  When the listing completes and no listed object counts as a
    match, the whole sampling run fails with the error that names the
    pattern, the skip counter higher by the number of zero-byte objects
    listed. *)
Theorem run_fails_when_nothing_matches {Y}
    (re_compile : string -> option (string -> bool))
    (paginate : string -> option string -> list page)
    (get_file_handle : string -> string -> file_handle)
    (ParquetFile : string -> string -> exn + parquet_file)
    (generate_schema : list pyval -> table_spec -> dict)
    (cfg : config) (spec : table_spec) (matcher : string -> bool)
    (skipped_files_count : nat) :
  re_compile (search_pattern spec) = Some matcher ->
  let listing := list_files_in_bucket paginate (bucket cfg) (search_prefix spec) in
  gen_end listing = None ->
  Forall (fun o => Size o = 0 \/ matcher (Key o) = false) (gen_items listing) ->
  run (@get_sampled_schema_for_table re_compile paginate get_file_handle
         ParquetFile generate_schema Y cfg spec) skipped_files_count
  = (inl (NoFilesFound (search_pattern spec)),
     Nat.add skipped_files_count
       (List.length (filter (fun o => Size o =? 0) (gen_items listing)))).
Proof.
  intros Hre listing Hend Hnone.
  set (files := get_input_files_for_table re_compile paginate cfg spec
                  (Some (start_date cfg)) (end_date cfg)).
  assert (Hy : yields files = []
               /\ outcome files = inl (NoFilesFound (search_pattern spec))
               /\ skips files
                  = List.length (filter (fun o => Size o =? 0) (gen_items listing))).
  { unfold files, get_input_files_for_table. rewrite Hre. fold listing.
    rewrite input_files_loop_yields, input_files_loop_outcome, input_files_loop_skips.
    rewrite Hend, (matched_objects_nil _ _ Hnone). now repeat split. }
  destruct Hy as (Hy & Ho & Hs).
  unfold run, get_sampled_schema_for_table. fold files.
  rewrite outcome_bind, skips_bind, outcome_collect, skips_collect.
  unfold sample_files, get_files_to_sample.
  rewrite outcome_bind, skips_bind.
  destruct (selector_on_silent_generator (Y:=pyval) get_file_handle cfg files
              (effective_max_files cfg 5) [] Hy) as [Hso Hss].
  unfold effective_max_files in Hso, Hss. rewrite Hso, Hss, Ho, Hs.
  f_equal. lia.
Qed.

Lemma run_fails_when_nothing_matches_witness :
  run (@get_sampled_schema_for_table re_literal
         (one_page [ {| Key := "a.csv"; LastModified := 8; Size := 0 |};
                     {| Key := "x.csv"; LastModified := 9; Size := 4 |} ])
         (fun _ _ => empty_body) no_parquet first_row_schema unit
         cfg0 (spec_of "a")) 0
  = (inl (NoFilesFound "a"), 1%nat).
Proof.
  apply (@run_fails_when_nothing_matches unit re_literal
           (one_page [ {| Key := "a.csv"; LastModified := 8; Size := 0 |};
                       {| Key := "x.csv"; LastModified := 9; Size := 4 |} ])
           (fun _ _ => empty_body) no_parquet first_row_schema
           cfg0 (spec_of "a") (search_literal "a") 0%nat eq_refl eq_refl).
  constructor; [left; reflexivity|].
  constructor; [right; reflexivity|].
  constructor.
Defined.

(** ** The CSV decoder *)

Lemma csv_loop_items r iterator current sampled :
  r <> 0 ->
  gen_items (get_records_for_csv_loop r iterator current sampled)
  = map (fun row => PDict (strip_extra row))
        (filter nonempty_row (every_rth_from r current (gen_items iterator)))
  /\ gen_end (get_records_for_csv_loop r iterator current sampled) = gen_end iterator.
Proof.
  intros Hr. revert current sampled.
  induction iterator as [|e|row rest IH]; intros;
    cbn [get_records_for_csv_loop gen_items gen_end every_rth_from filter map];
    try (now split).
  apply Z.eqb_neq in Hr. rewrite Hr. fold (strip_extra row).
  assert (Hne : nonempty_row row = negb (List.length row =? 0)%nat) by reflexivity.
  destruct (List.length row =? 0)%nat; cbn [negb] in Hne.
  - destruct (IH (current + 1) sampled) as [-> ->].
    destruct (current mod r =? 0); cbn [filter]; rewrite ?Hne; now split.
  - destruct (current mod r =? 0).
    + cbn [filter gen_items gen_end]. rewrite Hne. cbn [map].
      destruct (IH (current + 1) (sampled + 1)) as [-> ->]. now split.
    + apply IH.
Qed.

(** X6.  With a non-zero rate the CSV decoder yields the non-empty rows
    among those at positions 0, r, 2r, ... of the row iterator (empty rows
    count toward the position), each without its overflow column when
    that column is set, and ends as the iterator ends. *)
Theorem csv_decoder_samples_every_rth_row (s3_path : string) (r : Z)
    (iterator : Gen dict) :
  r <> 0 ->
  gen_items (get_records_for_csv s3_path r iterator)
  = map (fun row => PDict (strip_extra row))
        (filter nonempty_row (every_rth r (gen_items iterator)))
  /\ gen_end (get_records_for_csv s3_path r iterator) = gen_end iterator.
Proof. intros Hr. apply csv_loop_items. exact Hr. Qed.

Lemma csv_decoder_samples_every_rth_row_witness :
  gen_items (get_records_for_csv "a.csv" 2
               (yield_list [ [("id", PStr "1"); ("_sdc_extra", PList [PStr "x"])];
                             [("id", PStr "2")];
                             [];
                             [("id", PStr "4")];
                             [("id", PStr "5")] ] GStop))
  = [ PDict [("id", PStr "1")]; PDict [("id", PStr "5")] ].
Proof.
  exact (proj1 (csv_decoder_samples_every_rth_row "a.csv" 2
           (yield_list [ [("id", PStr "1"); ("_sdc_extra", PList [PStr "x"])];
                         [("id", PStr "2")];
                         [];
                         [("id", PStr "4")];
                         [("id", PStr "5")] ] GStop)
           ltac:(discriminate))).
Defined.

Lemma dict_get_not_in d k : ~ In k (dict_keys d) -> dict_get d k = None.
Proof.
  induction d as [|[k0 v0] d IH]; simpl; [reflexivity|]. intros H.
  destruct (String.eqb_spec k0 k) as [->|_]; [exfalso; apply H; now left|].
  apply IH. intros Hin. apply H. now right.
Qed.

Lemma dict_get_pop d k : NoDup (dict_keys d) -> dict_get (dict_pop d k) k = None.
Proof.
  induction d as [|[k0 v0] d IH]; simpl; [reflexivity|]. intros Hnd.
  apply NoDup_cons_iff in Hnd as [Hk0 Hnd].
  destruct (String.eqb_spec k0 k) as [->|Hne].
  - now apply dict_get_not_in.
  - simpl. apply String.eqb_neq in Hne. rewrite Hne. now apply IH.
Qed.

(** X7.  No row the CSV decoder yields carries a set overflow column:
    in every yielded row, [_sdc_extra] is absent or false. *)
Theorem csv_rows_have_no_overflow_column (s3_path : string) (r : Z)
    (iterator : Gen dict) :
  Forall (fun row => NoDup (dict_keys row)) (gen_items iterator) ->
  Forall (fun v =>
            exists row, v = PDict row
              /\ match dict_get row SDC_EXTRA_COLUMN with
                 | Some extra => truthy extra = false
                 | None => True
                 end)
         (gen_items (get_records_for_csv s3_path r iterator)).
Proof.
  unfold get_records_for_csv. generalize 0 at 1 as current. generalize 0 as sampled.
  induction iterator as [|e|row rest IH]; intros sampled current Hnd;
    cbn [get_records_for_csv_loop gen_items]; try constructor.
  cbn [gen_items] in Hnd. apply Forall_cons_iff in Hnd as [Hrow Hrest].
  destruct (List.length row =? 0)%nat; [now apply IH|].
  destruct (r =? 0); [constructor|].
  destruct (current mod r =? 0); [|now apply IH].
  cbn [gen_items]. constructor; [|now apply IH].
  eexists. split; [reflexivity|].
  destruct (dict_get row SDC_EXTRA_COLUMN) as [extra|] eqn:E.
  - destruct (truthy extra) eqn:Et.
    + now rewrite dict_get_pop.
    + now rewrite E.
  - now rewrite E.
Qed.

Lemma csv_rows_have_no_overflow_column_witness :
  Forall (fun v =>
            exists row, v = PDict row
              /\ match dict_get row SDC_EXTRA_COLUMN with
                 | Some extra => truthy extra = false
                 | None => True
                 end)
         (gen_items (get_records_for_csv "a.csv" 1
                       (yield_list [ [("id", PStr "1"); ("_sdc_extra", PList [PStr "x"])];
                                     [("_sdc_extra", PList []); ("id", PStr "2")] ] GStop))).
Proof.
  apply csv_rows_have_no_overflow_column.
  repeat constructor; cbn; intuition discriminate.
Defined.

(** ** The JSONL decoder *)

Lemma jsonl_loop_clean r lines current sampled :
  r <> 0 ->
  Forall (fun l => decodable l = true) (every_rth_from r current lines) ->
  get_records_for_jsonl_loop r lines current sampled
  = yield_list (flat_map jsonl_row (every_rth_from r current lines)) GStop.
Proof.
  intros Hr. revert current sampled.
  induction lines as [|l lines IH]; intros current sampled Hok;
    cbn [get_records_for_jsonl_loop every_rth_from flat_map yield_list] in *;
    [reflexivity|].
  apply Z.eqb_neq in Hr. rewrite Hr.
  destruct (current mod r =? 0); [|now apply IH].
  apply Forall_cons_iff in Hok as [Hl Hok]. cbn [flat_map].
  destruct l as [| | |v]; try discriminate Hl; cbn [jsonl_row app yield_list].
  - now apply IH.
  - cbn [decodable] in Hl.
    destruct (py_len v) as [[|n]|]; try discriminate Hl; cbn [app yield_list].
    + now apply IH.
    + f_equal. now apply IH.
Qed.

(** X8.  With a non-zero rate, when every line at a position 0, r, 2r,
    ... is blank or parses to a value with a length, the JSONL decoder
    yields the non-empty values of those lines in order and stops;
    the lines in between are never decoded, whatever they hold. *)
Theorem jsonl_decoder_samples_every_rth_line (s3_path : string) (r : Z)
    (lines : list line) :
  r <> 0 ->
  Forall (fun l => decodable l = true) (every_rth r lines) ->
  get_records_for_jsonl s3_path r lines
  = yield_list (flat_map jsonl_row (every_rth r lines)) GStop.
Proof. intros Hr Hok. now apply jsonl_loop_clean. Qed.

Lemma jsonl_decoder_samples_every_rth_line_witness :
  get_records_for_jsonl "a.jsonl" 2
    [ Json (PDict [("id", PInt 1)]); NotJson; Blank; Undecodable;
      Json (PDict []); Json (PInt 7); Json (PList [PInt 3]) ]
  = GYield (PDict [("id", PInt 1)]) (GYield (PList [PInt 3]) GStop).
Proof.
  apply (jsonl_decoder_samples_every_rth_line "a.jsonl" 2
           [ Json (PDict [("id", PInt 1)]); NotJson; Blank; Undecodable;
             Json (PDict []); Json (PInt 7); Json (PList [PInt 3]) ]);
    [discriminate|repeat constructor].
Defined.

(** ** The Parquet decoder at rate 1 *)

(** X9.  At rate 1 the Parquet decoder yields every row of the file, in
    the order of its row groups and batches. *)
Theorem parquet_rate_1_yields_every_row
    (ParquetFile : string -> string -> exn + parquet_file)
    (s3_bucket s3_path : string) (f : parquet_file) :
  ParquetFile s3_bucket s3_path = inr f ->
  gen_items (get_records_for_parquet ParquetFile s3_bucket s3_path 1)
  = map PDict (parquet_rows f)
  /\ gen_end (get_records_for_parquet ParquetFile s3_bucket s3_path 1) = None.
Proof.
  intros Hf. unfold get_records_for_parquet. rewrite Hf. split.
  - apply parquet_loop_rate_1.
  - generalize 0 at 1 as current. generalize 0 as sampled.
    induction (parquet_rows f) as [|row rows IH]; intros; simpl; [reflexivity|].
    rewrite Z.mod_1_r. simpl. apply IH.
Qed.

Lemma parquet_rate_1_yields_every_row_witness :
  gen_items (get_records_for_parquet (fun _ _ => inr six_rows) "bucket" "t.parquet" 1)
  = [ PDict [("a", PInt 10)]; PDict [("a", PInt 11)]; PDict [("a", PInt 12)];
      PDict [("a", PInt 13)]; PDict [("a", PInt 14)]; PDict [("a", PInt 15)] ].
Proof.
  exact (proj1 (parquet_rate_1_yields_every_row (fun _ _ => inr six_rows)
           "bucket" "t.parquet" six_rows eq_refl)).
Defined.

(** ** Post-sample validation, in general *)

(** X10.  Once the keys of the sampled records are collected, the check
    passes exactly when they include every declared key property and
    every declared date override; missing key properties are reported
    first, and either error carries the path and the missing keys. *)
Theorem check_reports_missing_keys {Y} (spec : table_spec)
    (records : Gen pyval) (s3_path : string) (all_keys : gset string) :
  observed_keys records 0 ∅ = inr all_keys ->
  let props : gset string := list_to_set (declared (key_properties spec)) in
  let overrides : gset string := list_to_set (declared (date_overrides spec)) in
  @check_key_properties_and_date_overrides_for_jsonl_file Y spec records s3_path
  = if bool_decide (props ⊆ all_keys)
    then if bool_decide (overrides ⊆ all_keys)
         then Ret tt
         else Raise (MissingDateOverrides s3_path (overrides ∖ all_keys))
    else Raise (MissingKeyProperties s3_path (props ∖ all_keys)).
Proof.
  intros Hkeys props overrides.
  unfold check_key_properties_and_date_overrides_for_jsonl_file. rewrite Hkeys.
  assert (Hempty : bool_decide ((list_to_set [] : gset string) ⊆ all_keys) = true).
  { apply bool_decide_eq_true_2. set_solver. }
  unfold props, overrides.
  destruct (declared (key_properties spec)) as [|p ps].
  - rewrite Hempty. cbn [bind].
    destruct (declared (date_overrides spec)) as [|o os].
    + now rewrite Hempty.
    + now destruct (bool_decide _).
  - destruct (bool_decide (list_to_set (p :: ps) ⊆ all_keys)); [|reflexivity].
    cbn [bind].
    destruct (declared (date_overrides spec)) as [|o os].
    + now rewrite Hempty.
    + now destruct (bool_decide _).
Qed.

Lemma check_reports_missing_keys_witness :
  @check_key_properties_and_date_overrides_for_jsonl_file unit
    {| table_name := "t"; search_pattern := "t"; search_prefix := None;
       key_properties := Some ["id"]; date_overrides := Some ["day"] |}
    (GYield (PDict [("id", PInt 1)]) (GYield (PDict [("name", PStr "n")]) GStop))
    "t.jsonl"
  = Raise (MissingDateOverrides "t.jsonl" (list_to_set ["day"])).
Proof.
  refine (eq_trans
            (@check_reports_missing_keys unit _ _ "t.jsonl"
               (list_to_set ["id"; "name"]) _) _);
    vm_compute; reflexivity.
Defined.

Lemma observed_keys_islice records rows all_keys :
  (rows <= 5000)%nat ->
  observed_keys records rows all_keys
  = observed_keys (islice records (S 5000 - rows)) rows all_keys.
Proof.
  revert rows all_keys.
  induction records as [|e|record rest IH]; intros rows all_keys Hrows;
    replace (S 5000 - rows)%nat with (S (5000 - rows)) by lia;
    cbn [islice observed_keys]; try reflexivity.
  destruct record; try reflexivity.
  destruct (Nat.ltb_spec 5000 (S rows)); [reflexivity|].
  rewrite IH by lia.
  now replace (S 5000 - S rows)%nat with (5000 - rows)%nat by lia.
Qed.

(** X11.  The check reads at most 5001 records: its result on a sample
    is its result on the first 5001 records of the sample. *)
Theorem check_reads_at_most_5001_records {Y} (spec : table_spec)
    (records : Gen pyval) (s3_path : string) :
  @check_key_properties_and_date_overrides_for_jsonl_file Y spec records s3_path
  = check_key_properties_and_date_overrides_for_jsonl_file
      spec (islice records (S 5000)) s3_path.
Proof.
  unfold check_key_properties_and_date_overrides_for_jsonl_file.
  rewrite (observed_keys_islice records 0) by lia.
  now rewrite Nat.sub_0_r.
Qed.

(** ** sample_file *)

Lemma not_in_other_files ext :
  PyStr.mem ext OTHER_FILES = false ->
  String.eqb ext "csv" = false /\ String.eqb ext "gz" = false
  /\ String.eqb ext "jsonl" = false /\ String.eqb ext "txt" = false
  /\ String.eqb ext "parquet" = false.
Proof.
  unfold PyStr.mem, OTHER_FILES. cbn [existsb]. intros H.
  repeat (apply orb_false_elim in H as [? H]). now repeat split.
Qed.

(** X12.  A file without extension, or with an extension outside
    [csv], [txt], [gz], [jsonl] and [parquet] (a [zip] inside an archive
    among them), is not read: [sample_file] returns the empty result and
    raises the skip counter once. *)
Theorem unsupported_extension_is_skipped {Y}
    (ParquetFile : string -> string -> exn + parquet_file)
    (spec : table_spec) (s3_bucket s3_path : string) (fh : file_handle)
    (sample_rate : Z) (extension : option string) :
  match extension with
  | Some ext => PyStr.mem ext OTHER_FILES = false
  | None => True
  end ->
  @sample_file ParquetFile Y spec s3_bucket s3_path fh sample_rate extension
  = Skipped (Ret GStop).
Proof.
  unfold sample_file. destruct extension as [ext|]; [|reflexivity].
  intros H. destruct (not_in_other_files ext H) as (Hc & Hg & Hj & Ht & Hp).
  destruct (negb _ || _); [reflexivity|].
  cbn [PyStr.mem existsb]. rewrite Hc, Ht, Hg, Hj, Hp. cbn [orb].
  now destruct (String.eqb ext "zip").
Qed.

Lemma unsupported_extension_is_skipped_witness :
  @sample_file no_parquet unit (spec_of "a") "bucket" "all.zip/inner.zip"
    (zip_member "inner.zip") 5 (Some "zip")
  = Skipped (Ret GStop).
Proof.
  exact (@unsupported_extension_is_skipped unit no_parquet (spec_of "a") "bucket"
           "all.zip/inner.zip" (zip_member "inner.zip") 5 (Some "zip") eq_refl).
Defined.

(** X13.  No gzip object is ever sampled: for the extension [gz],
    [sample_file] either skips the file (empty result, counter raised
    once) or raises; it never returns rows. *)
Theorem gz_file_is_never_sampled {Y}
    (ParquetFile : string -> string -> exn + parquet_file)
    (spec : table_spec) (s3_bucket s3_path : string) (fh : file_handle)
    (sample_rate : Z) :
  @sample_file ParquetFile Y spec s3_bucket s3_path fh sample_rate (Some "gz")
  = Skipped (Ret GStop)
  \/ exists e,
       @sample_file ParquetFile Y spec s3_bucket s3_path fh sample_rate (Some "gz")
       = Raise e.
Proof.
  unfold sample_file. cbn [PyStr.nonempty negb orb PyStr.mem existsb].
  change (String.eqb "gz" "csv") with false.
  change (String.eqb "gz" "txt") with false.
  change (String.eqb "gz" "gz") with true.
  cbn [orb]. destruct (String.eqb _ "gz"); [now left|].
  unfold sampling_gz_file.
  destruct (PyStr.endswith s3_path _); [now left|].
  destruct (get_file_name_from_gzfile fh) as [[]|n]; eauto.
  destruct (PyStr.nonempty n); [|eauto].
  destruct (PyStr.endswith n _); [now left|].
  destruct (gz_read fh); eauto.
Qed.

(** ** One candidate in sample_files *)

Lemma check_shape {Y} spec records s3_path :
  @check_key_properties_and_date_overrides_for_jsonl_file Y spec records s3_path = Ret tt
  \/ exists e,
       @check_key_properties_and_date_overrides_for_jsonl_file Y spec records s3_path
       = Raise e.
Proof.
  unfold check_key_properties_and_date_overrides_for_jsonl_file.
  destruct (observed_keys _ _ _); [eauto|].
  destruct (declared (key_properties spec)), (declared (date_overrides spec));
    repeat match goal with
           | |- context [bool_decide ?P] => destruct (bool_decide P)
           end; cbn [bind]; eauto.
Qed.

(** [sample_file] returns a generator, raises, or skips the file with
    the empty result. *)
Lemma sample_file_shape {Y}
    (ParquetFile : string -> string -> exn + parquet_file)
    spec s3_bucket s3_path fh sample_rate extension :
  (exists g, @sample_file ParquetFile Y spec s3_bucket s3_path fh sample_rate extension
             = Ret g)
  \/ (exists e, @sample_file ParquetFile Y spec s3_bucket s3_path fh sample_rate extension
                = Raise e)
  \/ @sample_file ParquetFile Y spec s3_bucket s3_path fh sample_rate extension
     = Skipped (Ret GStop).
Proof.
  unfold sample_file. destruct extension as [extension|]; [|now right; right].
  destruct (negb _ || _); [now right; right|].
  destruct (PyStr.mem _ _).
  { destruct (csv_iterator fh) as [|[]]; eauto. }
  destruct (String.eqb extension "gz").
  { unfold sampling_gz_file.
    destruct (PyStr.endswith s3_path _); [now right; right|].
    destruct (get_file_name_from_gzfile fh) as [[]|n]; eauto.
    destruct (PyStr.nonempty n); [|eauto].
    destruct (PyStr.endswith n _); [now right; right|].
    destruct (gz_read fh); eauto. }
  destruct (String.eqb extension "jsonl").
  { destruct (peek _) as [|[[]|]]; eauto.
    destruct (check_shape (Y:=Y) spec g s3_path) as [-> | [e ->]]; cbn [bind]; eauto. }
  destruct (String.eqb extension "parquet").
  { destruct (peek _) as [|[[]|]]; eauto. }
  destruct (String.eqb extension "zip"); now right; right.
Qed.

Lemma outcome_try_except_skip {Y} (body : Prog Y unit) :
  outcome (try_except body skip)
  = match outcome body with
    | inl e => if is_parse_error e then inr tt else inl e
    | inr r => inr r
    end.
Proof.
  induction body as [[]|e|y k IH|k IH]; cbn [try_except outcome]; auto.
  now destruct (is_parse_error e).
Qed.

Lemma skips_try_except_yield_from {A} (g : Gen A) :
  (skips (try_except (yield_from g) skip) <= 1)%nat.
Proof.
  induction g as [|e|a rest IH]; cbn [yield_from try_except skips]; auto.
  destruct (is_parse_error e); simpl; lia.
Qed.

(** X14.  No [UnicodeDecodeError] and no [JSONDecodeError] leaves the
    sampling of a candidate, whether it is raised while the file is
    opened and checked or while its rows are read. *)
Theorem sample_one_contains_parse_errors
    (ParquetFile : string -> string -> exn + parquet_file)
    (cfg : config) (spec : table_spec) (sample_rate max_records : Z)
    (c : candidate) (e : exn) :
  outcome (sample_one ParquetFile cfg spec sample_rate max_records c) = inl e ->
  is_parse_error e = false.
Proof.
  unfold sample_one. rewrite outcome_try_except_skip.
  destruct (outcome _) as [e'|[]]; [|discriminate].
  destruct (is_parse_error e') eqn:E; [discriminate|]. now intros [= <-].
Qed.

Lemma sample_one_contains_parse_errors_witness :
  outcome (sample_one no_parquet cfg0 (spec_of "a") 5 1000
             (direct "a.jsonl" (jsonl_body [Json (PInt 1)]) "jsonl"))
  = inl (TypeError "object has no len()")
  /\ outcome (sample_one no_parquet cfg0 (spec_of "a") 5 1000
                (direct "b.jsonl" (jsonl_body [NotJson]) "jsonl"))
     = inr tt
  /\ is_parse_error (TypeError "object has no len()") = false.
Proof.
  split; [reflexivity|]. split; [reflexivity|].
  exact (sample_one_contains_parse_errors no_parquet cfg0 (spec_of "a") 5 1000
           (direct "a.jsonl" (jsonl_body [Json (PInt 1)]) "jsonl")
           (TypeError "object has no len()") eq_refl).
Defined.

(** X15.  Sampling one candidate raises the skip counter at most once. *)
Theorem sample_one_skips_at_most_once
    (ParquetFile : string -> string -> exn + parquet_file)
    (cfg : config) (spec : table_spec) (sample_rate max_records : Z)
    (c : candidate) :
  (skips (sample_one ParquetFile cfg spec sample_rate max_records c) <= 1)%nat.
Proof.
  unfold sample_one.
  match goal with
  | |- context [@sample_file _ _ ?s ?b ?p ?h ?r ?x] =>
      destruct (sample_file_shape (Y:=pyval) ParquetFile s b p h r x)
        as [[g ->] | [[e ->] | ->]]
  end; cbn [bind try_except skips].
  - unfold islice_stop. destruct (max_records <? 0); cbn [bind try_except].
    + simpl. lia.
    + apply skips_try_except_yield_from.
  - destruct (is_parse_error e); simpl; lia.
  - unfold islice_stop. destruct (max_records <? 0); cbn [bind try_except].
    + simpl. lia.
    + destruct (Z.to_nat max_records); simpl; lia.
Qed.

(** ** The selector's candidates *)

Section SelectorInvariants.

Variable get_file_handle : string -> string -> file_handle.
Variable Y : Type.
Variables (cfg : config) (max_files : Z).

Local Abbreviation select := (@get_files_to_sample_loop get_file_handle Y cfg).

Lemma selector_loop_supported s3_files sampled l :
  Forall (fun c => supported_candidate c = true) sampled ->
  outcome (select s3_files max_files sampled) = inr l ->
  Forall (fun c => supported_candidate c = true) l.
Proof.
  revert sampled.
  induction s3_files as [r|e|f rest IH|rest IH]; intros sampled Hs;
    cbn [get_files_to_sample_loop outcome]; try (now intros [= <-]);
    try discriminate; [|now apply IH].
  destruct (_ >=? _); [now intros [= <-]|].
  destruct (PyStr.nonempty _); [|now apply IH].
  destruct (negb _ || _); [now apply IH|].
  destruct (PyStr.endswith (key f) _) eqn:Etar; [now apply IH|].
  destruct (String.eqb _ "zip").
  - destruct (zip_infer _) as [|files]; [discriminate|].
    apply IH. apply Forall_app. split; [exact Hs|].
    apply Forall_forall. intros c Hc. apply in_map_iff in Hc as (m & <- & Hm).
    apply filter_In in Hm as [_ Hm]. exact Hm.
  - destruct (PyStr.mem _ OTHER_FILES) eqn:Emem; [|now apply IH].
    apply IH. apply Forall_app. split; [exact Hs|].
    constructor; [|constructor].
    unfold supported_candidate, direct. cbn [c_type c_extension c_s3_path].
    now rewrite Emem, Etar.
Qed.

Lemma count_direct_le (l : list candidate) :
  (List.length (filter is_direct l) <= List.length l)%nat.
Proof.
  induction l as [|c l IH]; cbn [filter List.length]; [lia|].
  destruct (is_direct c); cbn [List.length]; lia.
Qed.

Lemma selector_loop_direct_bound s3_files sampled l :
  0 <= max_files ->
  (List.length (filter is_direct sampled) <= Z.to_nat max_files)%nat ->
  outcome (select s3_files max_files sampled) = inr l ->
  (List.length (filter is_direct l) <= Z.to_nat max_files)%nat.
Proof.
  intros Hm. revert sampled.
  induction s3_files as [r|e|f rest IH|rest IH]; intros sampled Hs;
    cbn [get_files_to_sample_loop outcome]; try (now intros [= <-]);
    try discriminate; [|now apply IH].
  destruct (Z.geb_spec (Z.of_nat (List.length sampled)) max_files) as [|Hlt];
    [now intros [= <-]|].
  destruct (PyStr.nonempty _); [|now apply IH].
  destruct (negb _ || _); [now apply IH|].
  destruct (PyStr.endswith (key f) _); [now apply IH|].
  destruct (String.eqb _ "zip").
  - destruct (zip_infer _) as [|files]; [discriminate|].
    apply IH. rewrite filter_app, List.length_app.
    replace (filter is_direct (map _ _)) with (@nil candidate); [simpl; lia|].
    induction (filter supported_member files) as [|m ms IHm]; [reflexivity|].
    cbn [map filter is_direct unzipped c_type]. exact IHm.
  - destruct (PyStr.mem _ OTHER_FILES); [|now apply IH].
    apply IH. rewrite filter_app, List.length_app.
    pose proof (count_direct_le sampled). simpl. lia.
Qed.

End SelectorInvariants.

(** X16.  Every candidate the selector returns has a supported
    extension ([csv], [gz], [jsonl], [txt] or [parquet], read off the
    object key or off the archive member name) and is not a [.tar.gz]. *)
Theorem selector_returns_supported_candidates {Y}
    (get_file_handle : string -> string -> file_handle)
    (cfg : config) (s3_files : Prog s3_file unit) (max_files : Z)
    (l : list candidate) :
  outcome (@get_files_to_sample get_file_handle Y cfg s3_files max_files) = inr l ->
  Forall (fun c => supported_candidate c = true) l.
Proof.
  unfold get_files_to_sample. apply selector_loop_supported. constructor.
Qed.

Lemma selector_returns_supported_candidates_witness :
  Forall (fun c => supported_candidate c = true)
    [ direct "in/a.csv" empty_body "csv";
      unzipped "in/b.zip" (zip_member "rows.jsonl") ].
Proof.
  apply (@selector_returns_supported_candidates unit
           (fun _ k => if String.eqb k "in/b.zip"
                       then zip_body [zip_member "rows.jsonl"; zip_member "x.tar.gz";
                                      zip_member "readme.md"]
                       else empty_body)
           cfg0
           (Yield {| key := "in/a.csv"; last_modified := 1 |}
              (Yield {| key := "in/old.tar.gz"; last_modified := 1 |}
                 (Yield {| key := "in/b.zip"; last_modified := 1 |}
                    (Yield {| key := "in/notes" ; last_modified := 1 |} (Ret tt)))))
           5).
  reflexivity.
Defined.

(** X17.  For a non-negative [max_files], at most [max_files] bucket
    objects become candidates themselves; only the members of expanded
    archives can take the list beyond the cap. *)
Theorem selector_keeps_at_most_max_files_objects {Y}
    (get_file_handle : string -> string -> file_handle)
    (cfg : config) (s3_files : Prog s3_file unit) (max_files : Z)
    (l : list candidate) :
  0 <= max_files ->
  outcome (@get_files_to_sample get_file_handle Y cfg s3_files max_files) = inr l ->
  (List.length (filter is_direct l) <= Z.to_nat max_files)%nat.
Proof.
  intros Hm. unfold get_files_to_sample.
  apply selector_loop_direct_bound; [exact Hm|simpl; lia].
Qed.

Lemma selector_keeps_at_most_max_files_objects_witness :
  (List.length
     (filter is_direct
        [ direct "a.csv" empty_body "csv"; direct "b.csv" empty_body "csv" ])
   <= Z.to_nat 2)%nat.
Proof.
  apply (@selector_keeps_at_most_max_files_objects unit (fun _ _ => empty_body) cfg0
           (Yield {| key := "a.csv"; last_modified := 1 |}
              (Yield {| key := "b.csv"; last_modified := 1 |}
                 (Yield {| key := "c.csv"; last_modified := 1 |} (Ret tt))))
           2);
    [lia|reflexivity].
Defined.

(** ** merge_dicts, in general *)

Lemma dict_set_fresh d k v : ~ In k (dict_keys d) -> dict_set d k v = (d ++ [(k, v)])%list.
Proof.
  induction d as [|[k0 v0] d IH]; simpl; [reflexivity|]. intros H.
  destruct (String.eqb_spec k0 k) as [->|_]; [exfalso; apply H; now left|].
  rewrite IH; [reflexivity|]. intros Hin. apply H. now right.
Qed.

Lemma fold_set_fresh (g : string -> pyval -> pyval) (l acc : dict) :
  NoDup (dict_keys l) ->
  (forall k, In k (dict_keys l) -> ~ In k (dict_keys acc)) ->
  fold_left (fun acc kv => dict_set acc (fst kv) (g (fst kv) (snd kv))) l acc
  = (acc ++ map (fun kv => (fst kv, g (fst kv) (snd kv))) l)%list.
Proof.
  revert acc. induction l as [|[k v] l IH]; intros acc Hnd Hdis.
  - simpl. now rewrite app_nil_r.
  - cbn [dict_keys map fst] in Hnd. apply NoDup_cons_iff in Hnd as [Hk Hnd].
    cbn [fold_left map fst snd].
    rewrite dict_set_fresh by (apply Hdis; now left).
    rewrite IH; [now rewrite <- app_assoc|exact Hnd|].
    intros k' Hk' Hin. unfold dict_keys in Hin. rewrite map_app in Hin.
    apply in_app_or in Hin as [Hin|[<-|[]]].
    + apply (Hdis k'); [now right|exact Hin].
    + exact (Hk Hk').
Qed.

(** X18.  Merging a dictionary whose keys are all new appends its
    entries, in their order, to the first dictionary. *)
Theorem merge_dicts_of_new_keys_appends (first second : dict) :
  NoDup (dict_keys second) ->
  (forall k, In k (dict_keys second) -> ~ In k (dict_keys first)) ->
  merge_dicts first second = (first ++ second)%list.
Proof.
  intros Hnd Hdis. rewrite merge_dicts_fold.
  rewrite (fold_set_fresh (merged_value first)) by assumption.
  f_equal. clear Hnd. induction second as [|[k v] second IH]; [reflexivity|].
  cbn [map fst snd]. rewrite IH by (intros k' Hk'; apply Hdis; now right).
  unfold merged_value. rewrite dict_get_not_in by (apply Hdis; now left).
  reflexivity.
Qed.

Lemma merge_dicts_of_new_keys_appends_witness :
  merge_dicts [("id", PDict [("type", PStr "integer")])] metadata_schema
  = ([("id", PDict [("type", PStr "integer")])] ++ metadata_schema)%list.
Proof.
  apply merge_dicts_of_new_keys_appends.
  - exact metadata_schema_keys_nodup.
  - cbn. intuition (subst; discriminate).
Defined.

(** X19.  For dictionaries with pairwise disjoint keys, merging is
    associative. *)
Theorem merge_dicts_assoc_on_disjoint_keys (a b c : dict) :
  NoDup (dict_keys b) -> NoDup (dict_keys c) ->
  (forall k, In k (dict_keys b) -> ~ In k (dict_keys a)) ->
  (forall k, In k (dict_keys c) -> ~ In k (dict_keys a)) ->
  (forall k, In k (dict_keys c) -> ~ In k (dict_keys b)) ->
  merge_dicts (merge_dicts a b) c = merge_dicts a (merge_dicts b c).
Proof.
  intros Hb Hc Hba Hca Hcb.
  rewrite (merge_dicts_of_new_keys_appends a b) by assumption.
  rewrite (merge_dicts_of_new_keys_appends b c) by assumption.
  rewrite !merge_dicts_of_new_keys_appends.
  - now rewrite app_assoc.
  - unfold dict_keys. rewrite map_app. apply NoDup_app; [exact Hb|exact Hc|].
    intros k Hk Hk'. exact (Hcb k Hk' Hk).
  - intros k Hk. unfold dict_keys in Hk. rewrite map_app in Hk.
    apply in_app_or in Hk as [Hk|Hk]; auto.
  - exact Hc.
  - intros k Hk Hin. unfold dict_keys in Hin. rewrite map_app in Hin.
    apply in_app_or in Hin as [Hin|Hin]; [exact (Hca k Hk Hin)|exact (Hcb k Hk Hin)].
Qed.

Lemma merge_dicts_assoc_on_disjoint_keys_witness :
  merge_dicts (merge_dicts [("a", PInt 1)] [("b", PInt 2)]) [("c", PInt 3)]
  = merge_dicts [("a", PInt 1)] (merge_dicts [("b", PInt 2)] [("c", PInt 3)]).
Proof.
  apply merge_dicts_assoc_on_disjoint_keys;
    try (repeat constructor; cbn; intuition (subst; discriminate));
    cbn; intuition (subst; discriminate).
Defined.

(** X20.  A key that the second dictionary does not have keeps, in the
    merge, the value it has in the first. *)
Theorem merge_dicts_keeps_other_fields (first second : dict) (k : string) :
  ~ In k (dict_keys second) ->
  dict_get (merge_dicts first second) k = dict_get first k.
Proof.
  intros Hk. rewrite merge_dicts_fold.
  apply (fold_set_other (merged_value first)). exact Hk.
Qed.

Lemma merge_dicts_keeps_other_fields_witness :
  dict_get (merge_dicts [("id", PDict [("type", PStr "integer")])] metadata_schema) "id"
  = dict_get [("id", PDict [("type", PStr "integer")])] "id".
Proof.
  apply merge_dicts_keeps_other_fields. cbn. intuition (subst; discriminate).
Defined.

Lemma dict_get_in_nodup (d : dict) k v :
  NoDup (dict_keys d) -> In (k, v) d -> dict_get d k = Some v.
Proof.
  induction d as [|[k0 v0] d IH]; intros Hnd Hin; [destruct Hin|].
  cbn [dict_keys map fst] in Hnd. apply NoDup_cons_iff in Hnd as [Hk0 Hnd].
  cbn [dict_get]. destruct Hin as [[= -> ->]|Hin].
  - now rewrite String.eqb_refl.
  - destruct (String.eqb_spec k0 k) as [->|_]; [|now apply IH].
    exfalso. apply Hk0. apply in_map_iff. now exists (k, v).
Qed.

Lemma dict_set_same (d : dict) k v : dict_get d k = Some v -> dict_set d k v = d.
Proof.
  induction d as [|[k0 v0] d IH]; cbn [dict_get dict_set]; [discriminate|].
  destruct (String.eqb_spec k0 k) as [->|_].
  - now intros [= ->].
  - intros H. now rewrite IH.
Qed.

Lemma nesting_in (d : dict) k v : In (k, v) d -> (nesting v < nesting (PDict d))%nat.
Proof.
  cbn [nesting]. induction d as [|[k0 v0] d IH]; intros Hin; [destruct Hin|].
  destruct Hin as [[= -> ->]|Hin]; [lia|]. specialize (IH Hin). lia.
Qed.

Lemma distinct_keys_in (d : dict) k v :
  distinct_keys (PDict d) -> In (k, v) d -> distinct_keys v.
Proof.
  cbn [distinct_keys]. intros [_ Hall].
  induction d as [|[k0 v0] d IH]; intros Hin; [destruct Hin|].
  destruct Hall as [Hv Hall]. destruct Hin as [[= -> ->]|Hin]; [exact Hv|now apply IH].
Qed.

Lemma merge_dicts_self_bounded n :
  forall d, (nesting (PDict d) <= n)%nat -> distinct_keys (PDict d) ->
            merge_dicts d d = d.
Proof.
  induction n as [|n IH]; intros d Hn Hd; [cbn [nesting] in Hn; lia|].
  rewrite merge_dicts_fold.
  assert (Hall : forall l : dict, (forall kv, In kv l -> In kv d) ->
            fold_left (fun to_return kv =>
                         dict_set to_return (fst kv) (merged_value d (fst kv) (snd kv)))
                      l d = d).
  { induction l as [|[k v] l IHl]; intros Hl; [reflexivity|].
    cbn [fold_left fst snd].
    assert (Hin : In (k, v) d) by (apply Hl; now left).
    assert (Hget : dict_get d k = Some v).
    { apply dict_get_in_nodup; [exact (proj1 Hd)|exact Hin]. }
    assert (Hval : merged_value d k v = v).
    { unfold merged_value. rewrite Hget. destruct v as [| | | | | |s]; try reflexivity.
      rewrite IH; [reflexivity| |exact (distinct_keys_in d k _ Hd Hin)].
      pose proof (nesting_in d k _ Hin). lia. }
    rewrite Hval, (dict_set_same d k v Hget).
    apply IHl. intros kv Hkv. apply Hl. now right. }
  apply Hall. auto.
Qed.

(** X21.  Merging a dictionary with itself gives it back, when keys are
    distinct in it and in the dictionaries nested in it. *)
Theorem merge_dicts_idempotent (d : dict) :
  distinct_keys (PDict d) -> merge_dicts d d = d.
Proof. intros Hd. now apply (merge_dicts_self_bounded (nesting (PDict d))). Qed.

Lemma merge_dicts_idempotent_witness :
  merge_dicts metadata_schema metadata_schema = metadata_schema.
Proof.
  apply merge_dicts_idempotent. cbn.
  repeat split; repeat constructor; cbn; intuition discriminate.
Defined.

(** ** The rows of a Parquet batch *)

Lemma combine_keys_nodup (names : list string) (row : list pyval) :
  NoDup names -> NoDup (dict_keys (combine names row)).
Proof.
  revert row. induction names as [|n names IH]; intros row Hnd; [constructor|].
  destruct row as [|v row]; [constructor|].
  apply NoDup_cons_iff in Hnd as [Hn Hnd]. cbn [combine dict_keys map fst].
  constructor; [|now apply IH].
  intros Hin. apply Hn. apply in_map_iff in Hin as ([k x] & <- & Hkx).
  now apply in_combine_l in Hkx.
Qed.

(** X22.  With distinct column names, the row the Parquet decoder yields
    binds each column name to the value at the same position, in column
    order. *)
Theorem parquet_row_binds_columns_in_order (names : list string) (row : list pyval) :
  NoDup names -> parquet_row names row = combine names row.
Proof.
  intros Hnd. unfold parquet_row.
  rewrite (fold_set_fresh (fun _ v => v) (combine names row) []).
  - cbn [app]. induction (combine names row) as [|[k v] l IH]; [reflexivity|].
    cbn [map fst snd]. now rewrite IH.
  - now apply combine_keys_nodup.
  - intros k _ [].
Qed.

Lemma parquet_row_binds_columns_in_order_witness :
  parquet_row ["id"; "name"] [PInt 1; PStr "n"] = [("id", PInt 1); ("name", PStr "n")].
Proof.
  apply parquet_row_binds_columns_in_order.
  repeat constructor; cbn; intuition discriminate.
Defined.

(** ** A file that is not JSONL *)

(** X23.  A JSONL candidate whose first line does not decode or is not
    JSON is skipped: no row, the counter raised once, and no exception,
    so that sampling goes on with the next candidate. *)
Theorem jsonl_with_bad_first_line_is_skipped
    (ParquetFile : string -> string -> exn + parquet_file)
    (cfg : config) (spec : table_spec) (sample_rate max_records : Z)
    (file_key : string) (fh : file_handle) (l : line) (rest : list line) :
  sample_rate <> 0 ->
  String.eqb (PyStr.lower file_key) "jsonl" = false ->
  lines fh = l :: rest ->
  l = Undecodable \/ l = NotJson ->
  sample_one ParquetFile cfg spec sample_rate max_records (direct file_key fh "jsonl")
  = Skipped (Ret tt).
Proof.
  intros Hr Hkey Hlines Hl. unfold sample_one, direct.
  cbn [c_type c_s3_path c_file_handle c_extension].
  unfold sample_file. rewrite Hkey.
  cbn [PyStr.nonempty negb orb PyStr.mem existsb].
  change (String.eqb "jsonl" "csv") with false.
  change (String.eqb "jsonl" "txt") with false.
  change (String.eqb "jsonl" "gz") with false.
  change (String.eqb "jsonl" "jsonl") with true.
  cbn [orb]. unfold get_records_for_jsonl. rewrite Hlines.
  cbn [get_records_for_jsonl_loop]. apply Z.eqb_neq in Hr. rewrite Hr.
  change (0 mod sample_rate =? 0) with true. cbv iota.
  destruct Hl as [-> | ->]; reflexivity.
Qed.

Lemma jsonl_with_bad_first_line_is_skipped_witness :
  sample_one no_parquet cfg0 (spec_of "a") 5 1000
    (direct "in/a.jsonl" (jsonl_body [NotJson; Json (PDict [("id", PInt 1)])]) "jsonl")
  = Skipped (Ret tt).
Proof.
  apply (jsonl_with_bad_first_line_is_skipped no_parquet cfg0 (spec_of "a") 5 1000
           "in/a.jsonl" (jsonl_body [NotJson; Json (PDict [("id", PInt 1)])])
           NotJson [Json (PDict [("id", PInt 1)])]);
    [discriminate | reflexivity | reflexivity | now right].
Defined.

(** ** Sampling every candidate *)

Lemma for_each_all_return {Y A} (l : list A) (body : A -> Prog Y unit) :
  Forall (fun x => outcome (body x) = inr tt) l ->
  yields (for_each l body) = flat_map (fun x => yields (body x)) l
  /\ outcome (for_each l body) = inr tt
  /\ skips (for_each l body) = list_sum (map (fun x => skips (body x)) l).
Proof.
  induction 1 as [|x l Hx _ (IHy & IHo & IHs)]; [now repeat split|].
  cbn [for_each flat_map map list_sum].
  rewrite yields_bind, outcome_bind, skips_bind, Hx, IHy, IHo, IHs. now repeat split.
Qed.

(** X24.  When the selector returns and none of the first [max_files]
    candidates ends with an exception, [sample_files] samples each of
    them in order: its rows are theirs put end to end, and the skip
    counter grows by the selector's skips and theirs. *)
Theorem sample_files_samples_each_candidate
    (get_file_handle : string -> string -> file_handle)
    (ParquetFile : string -> string -> exn + parquet_file)
    (cfg : config) (spec : table_spec) (s3_files : Prog s3_file unit)
    (sample_rate max_records max_files : Z) (files : list candidate) :
  let m := effective_max_files cfg max_files in
  let one := sample_one ParquetFile cfg spec sample_rate max_records in
  let run := sample_files get_file_handle ParquetFile cfg spec s3_files
               sample_rate max_records max_files in
  0 <= m ->
  outcome (@get_files_to_sample get_file_handle pyval cfg s3_files m) = inr files ->
  Forall (fun c => outcome (one c) = inr tt) (firstn (Z.to_nat m) files) ->
  yields run = flat_map (fun c => yields (one c)) (firstn (Z.to_nat m) files)
  /\ outcome run = inr tt
  /\ skips run
     = (skips (@get_files_to_sample get_file_handle pyval cfg s3_files m)
        + list_sum (map (fun c => skips (one c)) (firstn (Z.to_nat m) files)))%nat.
Proof.
  intros m one run Hm Hsel Hall. unfold run, sample_files.
  fold (effective_max_files cfg max_files). fold m. fold one.
  rewrite yields_bind, outcome_bind, skips_bind, Hsel.
  unfold get_files_to_sample at 1. rewrite selector_yields_nothing. cbn [app].
  unfold islice_stop. destruct (Z.ltb_spec m 0); [lia|]. cbn [bind].
  destruct (for_each_all_return _ one Hall) as (Hy & Ho & Hs).
  now rewrite Hy, Ho, Hs.
Qed.

Lemma sample_files_samples_each_candidate_witness :
  yields (sample_files
            (fun _ k => if String.eqb k "a.csv"
                        then csv_member "" [[("id", PStr "1")]]
                        else jsonl_body [NotJson])
            no_parquet cfg0 (spec_of "a")
            (Yield {| key := "b.jsonl"; last_modified := 1 |}
               (Yield {| key := "a.csv"; last_modified := 1 |} (Ret tt)))
            1 1000 5)
  = [PDict [("id", PStr "1")]].
Proof.
  refine (proj1 (sample_files_samples_each_candidate
            (fun _ k => if String.eqb k "a.csv"
                        then csv_member "" [[("id", PStr "1")]]
                        else jsonl_body [NotJson])
            no_parquet cfg0 (spec_of "a")
            (Yield {| key := "b.jsonl"; last_modified := 1 |}
               (Yield {| key := "a.csv"; last_modified := 1 |} (Ret tt)))
            1 1000 5 _ _ eq_refl _)).
  - unfold effective_max_files. simpl. lia.
  - repeat constructor.
Defined.

(** ** A whole run over one CSV object *)

Lemma gen_items_islice {A} (g : Gen A) n :
  gen_items (islice g n) = firstn n (gen_items g).
Proof.
  revert g. induction n as [|n IH]; intros g; [reflexivity|].
  destruct g; cbn [islice gen_items firstn]; [reflexivity..|]. now rewrite IH.
Qed.

(** X25.  When the bucket holds one non-empty CSV object that matches
    the pattern and lies in the window, the run samples it at the default
    rate and cap: the rows handed to schema inference are the first 1000
    of the non-empty rows at positions 0, 5, 10, ... of the file, without
    their overflow column. *)
Theorem csv_object_is_sampled_one_in_five
    (re_compile : string -> option (string -> bool))
    (paginate : string -> option string -> list page)
    (get_file_handle : string -> string -> file_handle)
    (ParquetFile : string -> string -> exn + parquet_file)
    (cfg : config) (spec : table_spec) (matcher : string -> bool)
    (o : S3Object) (pre : string) (iterator : Gen dict) :
  re_compile (search_pattern spec) = Some matcher ->
  list_files_in_bucket paginate (bucket cfg) (search_prefix spec) = GYield o GStop ->
  Key o = pre ++ ".csv" ->
  Size o <> 0 ->
  matcher (Key o) = true ->
  in_window (Some (start_date cfg)) (end_date cfg) o = true ->
  1 <= effective_max_files cfg 5 ->
  csv_iterator (get_file_handle (bucket cfg) (Key o)) = inr (Some iterator) ->
  yields (sample_files get_file_handle ParquetFile cfg spec
            (get_input_files_for_table re_compile paginate cfg spec
               (Some (start_date cfg)) (end_date cfg))
            5 1000 5)
  = firstn 1000
      (map (fun row => PDict (strip_extra row))
           (filter nonempty_row (every_rth 5 (gen_items iterator)))).
Proof.
  intros Hre Hlist Hkey Hsize Hm Hwin Hmax Hcsv.
  rewrite (single_object_files re_compile paginate cfg spec
             matcher o _ _ Hre Hlist Hsize Hm), Hwin.
  unfold sample_files, get_files_to_sample.
  fold (effective_max_files cfg 5).
  set (m := effective_max_files cfg 5) in *.
  rewrite (selector_keeps_direct get_file_handle _ cfg m (to_s3_file o) (Ret tt) []
             pre "csv");
    [ | exact Hkey | reflexivity | reflexivity | reflexivity | reflexivity
      | cbn [to_s3_file key]; apply endswith_last_char;
        [discriminate | rewrite Hkey, last_char_app; discriminate]
      | simpl; lia ].
  cbn [get_files_to_sample_loop bind app].
  unfold islice_stop at 1. destruct (Z.ltb_spec m 0); [lia|]. cbn [bind].
  destruct (Z.to_nat m) as [|n] eqn:En; [lia|].
  cbn [firstn for_each to_s3_file key].
  rewrite firstn_nil. cbn [for_each].
  rewrite yields_bind. cbn [yields].
  match goal with |- (?l ++ _)%list = _ => replace (l ++ _)%list with l end.
  2:{ destruct (outcome _); now rewrite app_nil_r. }
  unfold sample_one, direct.
  cbn [c_type c_s3_path c_file_handle c_extension].
  rewrite yields_try_except_skip. unfold sample_file.
  destruct (key_extension pre "csv" eq_refl eq_refl eq_refl) as (_ & _ & Hlow & _).
  change (pre ++ String "." "csv") with (pre ++ ".csv") in Hlow.
  rewrite <- Hkey in Hlow. rewrite Hlow.
  cbn [PyStr.nonempty negb orb PyStr.mem existsb].
  change (String.eqb "csv" "csv") with true.
  cbn [orb]. rewrite Hcsv. cbn [bind].
  unfold islice_stop. change (1000 <? 0) with false. cbn [bind].
  rewrite yields_yield_from, gen_items_islice.
  change (Z.to_nat 1000) with 1000%nat. f_equal.
  apply csv_loop_items. discriminate.
Qed.

Lemma csv_object_is_sampled_one_in_five_witness :
  yields (sample_files
            (fun _ _ => csv_member ""
               [ [("id", PStr "0")]; [("id", PStr "1")]; []; [("id", PStr "3")];
                 [("id", PStr "4")]; [("id", PStr "5"); ("_sdc_extra", PStr "x")] ])
            no_parquet cfg0 (spec_of "rows")
            (get_input_files_for_table re_literal
               (one_page [ {| Key := "in/rows.csv"; LastModified := 9; Size := 30 |} ])
               cfg0 (spec_of "rows") (Some (start_date cfg0)) (end_date cfg0))
            5 1000 5)
  = [ PDict [("id", PStr "0")]; PDict [("id", PStr "5")] ].
Proof.
  refine (eq_trans
            (csv_object_is_sampled_one_in_five re_literal
               (one_page [ {| Key := "in/rows.csv"; LastModified := 9; Size := 30 |} ])
               (fun _ _ => csv_member ""
                  [ [("id", PStr "0")]; [("id", PStr "1")]; []; [("id", PStr "3")];
                    [("id", PStr "4")]; [("id", PStr "5"); ("_sdc_extra", PStr "x")] ])
               no_parquet cfg0 (spec_of "rows") (search_literal "rows")
               {| Key := "in/rows.csv"; LastModified := 9; Size := 30 |} "in/rows"
               (fold_right GYield GStop
                  [ [("id", PStr "0")]; [("id", PStr "1")]; []; [("id", PStr "3")];
                    [("id", PStr "4")]; [("id", PStr "5"); ("_sdc_extra", PStr "x")] ])
               eq_refl eq_refl eq_refl _ eq_refl eq_refl _ eq_refl) _).
  - discriminate.
  - unfold effective_max_files. simpl. lia.
  - reflexivity.
Defined.

(** ** A listing that fails *)

Lemma lister_loop_items_and_end (pages : list page) :
  gen_items (list_files_in_bucket_loop pages) = listed_objects pages
  /\ gen_end (list_files_in_bucket_loop pages)
     = if all_pages_have_contents pages then None else Some (KeyError "Contents").
Proof.
  induction pages as [|p pages [IHi IHe]];
    cbn [list_files_in_bucket_loop listed_objects all_pages_have_contents forallb];
    [now split|].
  destruct (Contents p) as [contents|]; [|now split].
  rewrite gen_items_yield_list, gen_end_yield_list, IHi. now split.
Qed.

(** C7 (code defect).  The claim asks for the error that names the
    pattern whenever no listed object matched.  When a page of the
    listing has no [Contents], as the only page has for a bucket or
    prefix that lists nothing, and no object listed before it counts as a
    match, the filter yields nothing and ends with [KeyError], not with
    the error that names the pattern: the lister reads [page['Contents']]
    before it reaches its own branch for a listing without files. *)
Theorem no_match_error_lost_on_page_without_contents
    (re_compile : string -> option (string -> bool))
    (paginate : string -> option string -> list page)
    (cfg : config) (spec : table_spec) (modified_since modified_until : option Z)
    (matcher : string -> bool) :
  re_compile (search_pattern spec) = Some matcher ->
  let pages := paginate (bucket cfg) (search_prefix spec) in
  let files :=
    get_input_files_for_table re_compile paginate cfg spec
      modified_since modified_until in
  all_pages_have_contents pages = false ->
  Forall (fun o => Size o = 0 \/ matcher (Key o) = false) (listed_objects pages) ->
  yields files = []
  /\ outcome files = inl (KeyError "Contents")
  /\ outcome files <> inl (NoFilesFound (search_pattern spec)).
Proof.
  intros Hre pages files Hpages Hnone.
  assert (Hy : yields files = [] /\ outcome files = inl (KeyError "Contents")).
  { unfold files, get_input_files_for_table, list_files_in_bucket.
    rewrite Hre. fold pages.
    destruct (lister_loop_items_and_end pages) as [Hitems Hend].
    rewrite Hpages in Hend.
    rewrite input_files_loop_yields, input_files_loop_outcome, Hend, Hitems.
    now rewrite (matched_objects_nil _ _ Hnone). }
  destruct Hy as [Hy Ho]. repeat split; [exact Hy|exact Ho|].
  rewrite Ho. discriminate.
Qed.

(** A prefix that lists nothing: one page, without [Contents]. *)
Lemma no_match_error_lost_on_page_without_contents_witness :
  yields (get_input_files_for_table re_literal
            (fun _ _ => [ {| Contents := None |} ])
            cfg0 (spec_of "a") (Some 0) None) = []
  /\ outcome (get_input_files_for_table re_literal
                (fun _ _ => [ {| Contents := None |} ])
                cfg0 (spec_of "a") (Some 0) None)
     = inl (KeyError "Contents")
  /\ outcome (get_input_files_for_table re_literal
                (fun _ _ => [ {| Contents := None |} ])
                cfg0 (spec_of "a") (Some 0) None)
     <> inl (NoFilesFound "a").
Proof.
  exact (no_match_error_lost_on_page_without_contents re_literal
           (fun _ _ => [ {| Contents := None |} ])
           cfg0 (spec_of "a") (Some 0) None (search_literal "a")
           eq_refl eq_refl (Forall_nil _)).
Defined.
